(** * Echo-Gorm: the CRUD handlers of [main.go] over a model of the store

    The program is five HTTP handlers ([getUsers], [getUser], [createUser],
    [updateUser], [deleteUser]) over one table of [User] rows reached through
    GORM.  The handlers are embedded as state-passing functions over the
    database; the calls they make into [strconv], Echo and GORM are embedded
    next to them, so that the handlers read like the Go text. *)

From Stdlib Require Import ZArith NArith List String Ascii Bool Lia.
From Stdlib Require Import Permutation.
Import ListNotations.
Local Open Scope string_scope.
Local Open Scope N_scope.

Set Implicit Arguments.

(** ** Data model *)

(** [type User struct { ID uint; Name string; Birthday string }] *)
Record User : Type := mkUser {
  ID : N;
  Name : string;
  Birthday : string
}.

(** The zero value of the struct: [var user User], [new(User)]. *)
Definition zeroUser : User := mkUser 0 "" "".

Definition setName (s : string) (u : User) : User :=
  mkUser (ID u) s (Birthday u).

Definition setBirthday (s : string) (u : User) : User :=
  mkUser (ID u) (Name u) s.

Definition setID (k : N) (u : User) : User :=
  mkUser k (Name u) (Birthday u).

(** A Go slice is either [nil] or a (possibly empty) run of elements; the
    two differ once marshalled. *)
Inductive slice (A : Type) : Type :=
| nilSlice : slice A
| mkSlice : list A -> slice A.
Arguments nilSlice {A}.

(** ** JSON values written by [c.JSON] *)

#[warnings="-register-all"]
Inductive json : Type :=
| JNull : json
| JNum : N -> json
| JStr : string -> json
| JArr : list json -> json
| JObj : list (string * json) -> json.

(** [User] carries the tags [json:"ID"], [json:"Name"], [json:"Birthday"]. *)
Definition marshalUser (u : User) : json :=
  JObj [("ID", JNum (ID u)); ("Name", JStr (Name u));
        ("Birthday", JStr (Birthday u))].

(** [encoding/json] writes a nil slice as [null] and any other as an array. *)
Definition marshalUsers (s : slice User) : json :=
  match s with
  | nilSlice => JNull
  | mkSlice l => JArr (map marshalUser l)
  end.

(** [map[string]string{k: v}] and [echo.Map{k: v}] with one string entry. *)
Definition marshalMap (k v : string) : json := JObj [(k, JStr v)].

Record Response : Type := mkResponse {
  status : N;
  body : json
}.

Definition StatusOK : N := 200.
Definition StatusCreated : N := 201.
Definition StatusBadRequest : N := 400.
Definition StatusNotFound : N := 404.
Definition StatusInternalServerError : N := 500.

(** ** strconv.Atoi *)

Module strconv.

Inductive NumError : Type := ErrSyntax | ErrRange.

Definition intSize : N := 64.
Definition maxUint64 : N := 2 ^ 64 - 1.

(** The digit loop of [ParseUint(s, 10, 64)], on the accumulator [n]; the
    arithmetic is that of [uint64]. *)
Fixpoint parseDigits (s : string) (n : N) : N + NumError :=
  match s with
  | EmptyString => inl n
  | String c rest =>
      let b := N_of_ascii c in
      if (48 <=? b) && (b <=? 57) then
        let d := b - 48 in
        if maxUint64 / 10 + 1 <=? n then inr ErrRange
        else
          let n10 := (n * 10) mod 2 ^ 64 in
          let n1 := (n10 + d) mod 2 ^ 64 in
          if (n1 <? n10) || (maxUint64 <? n1) then inr ErrRange
          else parseDigits rest n1
      else inr ErrSyntax
  end.

Definition ParseUint (s : string) : N + NumError :=
  match s with
  | EmptyString => inr ErrSyntax
  | _ => parseDigits s 0
  end.

(** [ParseInt(s, 10, 0)]: an optional sign, then [ParseUint], then the
    range of [int]. *)
Definition ParseInt (s : string) : Z + NumError :=
  match s with
  | EmptyString => inr ErrSyntax
  | String c rest =>
      let neg := Ascii.eqb c "-" in
      let s1 := if Ascii.eqb c "+" || neg then rest else s in
      match ParseUint s1 with
      | inr e => inr e
      | inl un =>
          let cutoff := 2 ^ (intSize - 1) in
          if negb neg && (cutoff <=? un) then inr ErrRange
          else if neg && (cutoff <? un) then inr ErrRange
          else inl (if neg then (- Z.of_N un)%Z else Z.of_N un)
      end
  end.

(** [Atoi] is [ParseInt(s, 10, 0)] narrowed to [int]; its fast path for
    short inputs computes the same result. *)
Definition Atoi (s : string) : Z + NumError := ParseInt s.

End strconv.

(** ** The request, as Echo hands it to a handler *)

(** What [c.Bind] finds in the request body: either something it cannot
    decode into [User] (broken JSON, a field of the wrong type, a media type
    it does not support), or a JSON object, of which only the presence and
    value of the three keys of [User] matter. *)
Inductive Payload : Type :=
| Malformed : Payload
| Object : option N -> option string -> option string -> Payload.

Record Context : Type := mkContext {
  pathParams : list (string * string);
  payload : Payload
}.

(** [c.Param(name)]: the path parameter, or the empty string. *)
Fixpoint lookupParam (name : string) (ps : list (string * string)) : string :=
  match ps with
  | [] => ""
  | (k, v) :: rest => if String.eqb k name then v else lookupParam name rest
  end.

Definition Param (c : Context) (name : string) : string :=
  lookupParam name (pathParams c).

Definition orElse {A : Type} (o : option A) (d : A) : A :=
  match o with
  | Some a => a
  | None => d
  end.

(** [c.Bind(u)]: the keys present in the body overwrite the fields of [u],
    the others keep their value; a number that does not fit [uint] is a
    decoding error.  [None] stands for a non-nil [err]. *)
Definition Bind (c : Context) (u : User) : option User :=
  match payload c with
  | Malformed => None
  | Object i n b =>
      if strconv.maxUint64 <? orElse i 0 then None
      else Some (mkUser (orElse i (ID u)) (orElse n (Name u))
                        (orElse b (Birthday u)))
  end.

(** ** The store: the calls the handlers make on [db *gorm.DB] *)

(** GORM and the database are libraries, not code of this program; what
    follows is the documented behaviour of the five calls the handlers make
    ([Find], [First], [Create], [Save], [Delete]) on the one table
    [users], whose column [id] is an auto-incremented primary key. *)

Module gorm.

(** [initDB] opens one of two drivers, chosen by [DB_TYPE]. *)
Inductive Dialect : Type := Postgres | Sqlite.

(** The value of [.Error] after a call, when it is not [nil]. *)
Inductive Error : Type :=
| ErrRecordNotFound      (* First matched no row *)
| ErrDuplicatedKey       (* the primary-key constraint rejected a row *)
| ErrMissingWhereClause  (* Delete on a value whose primary key is zero *)
| ErrOutOfRange          (* the id does not fit the integer column *)
| ErrBadConn.            (* the statement did not reach the database *)

(** The database behind the global [db]: the rows of table [users] in the
    order [Find] lists them (the queries carry no [ORDER BY], so the
    database promises none: that order is the model's), the state of the generator of [id] (a [bigserial]
    sequence under Postgres, the [sqlite_sequence] entry of an
    [AUTOINCREMENT] column under SQLite), and, for each coming call, whether
    the connection will fail it ([true]); past the end of that list every
    call goes through. *)
Record DB : Type := mkDB {
  dialect : Dialect;
  rows : list User;
  sequence : N;
  outages : list bool
}.

Definition setRows (l : list User) (db : DB) : DB :=
  mkDB (dialect db) l (sequence db) (outages db).

Definition setSequence (k : N) (db : DB) : DB :=
  mkDB (dialect db) (rows db) k (outages db).

Definition setOutages (o : list bool) (db : DB) : DB :=
  mkDB (dialect db) (rows db) (sequence db) o.

(** Whether the next call fails to reach the database, and the database
    once that call has been attempted. *)
Definition down (db : DB) : bool :=
  match outages db with
  | [] => false
  | d :: _ => d
  end.

Definition tick (db : DB) : DB := setOutages (tl (outages db)) db.

(** The row whose primary key is [id], as [WHERE id = ?] finds it. *)
Definition byID (id : Z) (l : list User) : option User :=
  find (fun r => (Z.of_N (ID r) =? id)%Z) l.

(** [UPDATE users SET ... WHERE id = u.ID] *)
Definition replaceRow (u : User) (l : list User) : list User :=
  map (fun r => if ID r =? ID u then u else r) l.

(** [DELETE FROM users WHERE id = k] *)
Definition deleteRow (k : N) (l : list User) : list User :=
  filter (fun r => negb (ID r =? k)) l.

(** The table after [db.AutoMigrate(&User{})] on a fresh database. *)
Definition migrated (d : Dialect) : DB := mkDB d [] 0 [].

Definition ids (db : DB) : list N := map ID (rows db).

Definition hasID (k : N) (l : list User) : bool :=
  existsb (fun r => ID r =? k) l.

Definition maxID (l : list User) : N :=
  fold_right (fun r m => N.max (ID r) m) 0 l.

(** The [id] the database gives a row inserted without one; [Store.insert]
    refuses it once it no longer fits the signed 64-bit column. *)
Definition nextID (db : DB) : N :=
  match dialect db with
  | Postgres => sequence db + 1
  | Sqlite => N.max (sequence db) (maxID (rows db)) + 1
  end.

End gorm.

Import gorm.

(** ** State passing *)

(** A computation that reads and writes the database. *)
Definition St (A : Type) : Type := DB -> A * DB.

Definition ret {A : Type} (a : A) : St A := fun db => (a, db).

Definition bind {A B : Type} (m : St A) (k : A -> St B) : St B :=
  fun db => let (a, db') := m db in k a db'.

Declare Scope st_scope.
Delimit Scope st_scope with st.
Notation "x <- m ;; k" := (bind m (fun x => k))
  (at level 61, m at next level, right associativity) : st_scope.
Notation "' pat <- m ;; k" := (bind m (fun x => match x with pat => k end))
  (at level 61, pat pattern, m at next level, right associativity) : st_scope.
Local Open Scope st_scope.

Definition get : St DB := fun db => (db, db).
Definition put (db : DB) : St unit := fun _ => (tt, db).

(** What a GORM call leaves behind: the destination it was given a pointer
    to, and [.Error] ([None] for [nil]). *)
Definition Outcome (A : Type) : Type := (A * option Error)%type.

Module Store.

(** Every call starts by reaching the database, which uses up the head of
    [outages]. *)
Definition dial : St bool :=
  db <- get ;;
  _ <- put (tick db) ;;
  ret (down db).

(** [INSERT INTO users]: a zero [ID] is left to the generator, any other
    is sent as it is; an id that does not fit the signed 64-bit column is
    refused, and the primary key rejects an [id] already in use. *)
Definition insert (u : User) : St (Outcome User) :=
  db <- get ;;
  if ID u =? 0 then
    let k := nextID db in
    if 2 ^ 63 <=? k then ret (u, Some ErrOutOfRange)
    else
      _ <- put (setSequence k db) ;;
      if hasID k (rows db) then ret (u, Some ErrDuplicatedKey)
      else
        let u' := setID k u in
        _ <- put (setRows (rows db ++ [u']) (setSequence k db)) ;;
        ret (u', None)
  else if 2 ^ 63 <=? ID u then ret (u, Some ErrOutOfRange)
  else if hasID (ID u) (rows db) then ret (u, Some ErrDuplicatedKey)
  else
    let s := match dialect db with
             | Postgres => sequence db
             | Sqlite => N.max (sequence db) (ID u)
             end in
    _ <- put (setRows (rows db ++ [u]) (setSequence s db)) ;;
    ret (u, None).

(** [db.Find(&users)]: on success the destination is a fresh slice holding
    every row; an empty table leaves it empty, not [nil]. *)
Definition Find (dest : slice User) : St (Outcome (slice User)) :=
  failed <- dial ;;
  if failed then ret (dest, Some ErrBadConn)
  else db <- get ;; ret (mkSlice (rows db), None).

(** [db.First(&user, id)]: the row whose primary key is [id]. *)
Definition First (dest : User) (id : Z) : St (Outcome User) :=
  failed <- dial ;;
  if failed then ret (dest, Some ErrBadConn)
  else
    db <- get ;;
    match byID id (rows db) with
    | Some r => ret (r, None)
    | None => ret (dest, Some ErrRecordNotFound)
    end.

(** [db.Create(user)] *)
Definition Create (u : User) : St (Outcome User) :=
  failed <- dial ;;
  if failed then ret (u, Some ErrBadConn) else insert u.

(** [db.Save(&user)]: without a primary key it is [Create]; with one it
    updates every column of the row, and inserts the row when the update
    matched none. *)
Definition Save (u : User) : St (Outcome User) :=
  failed <- dial ;;
  if failed then ret (u, Some ErrBadConn)
  else if ID u =? 0 then insert u
  else
    db <- get ;;
    if hasID (ID u) (rows db) then
      _ <- put (setRows (replaceRow u (rows db)) db) ;;
      ret (u, None)
    else insert u.

(** [db.Delete(&user)]: deletes by the primary key of [user], and refuses
    to run without one. *)
Definition Delete (u : User) : St (Outcome User) :=
  failed <- dial ;;
  if failed then ret (u, Some ErrBadConn)
  else if ID u =? 0 then ret (u, Some ErrMissingWhereClause)
  else
    db <- get ;;
    _ <- put (setRows (deleteRow (ID u) (rows db)) db) ;;
    ret (u, None).

End Store.

(** ** The handlers of [main.go] *)

(** [c.JSON(code, v)], with [v] already marshalled. *)
Definition JSON (code : N) (v : json) : St Response :=
  ret (mkResponse code v).

(** Fetch all users *)
Definition getUsers (c : Context) : St Response :=
  let users := nilSlice in
  '(users, err) <- Store.Find users ;;
  match err with
  | Some _ =>
      JSON StatusInternalServerError (marshalMap "error" "Failed to fetch users")
  | None => JSON StatusOK (marshalUsers users)
  end.

(** Fetch a user *)
Definition getUser (c : Context) : St Response :=
  match strconv.Atoi (Param c "id") with
  | inr _ => JSON StatusBadRequest (marshalMap "error" "Invalid user ID")
  | inl id =>
      let user := zeroUser in
      '(user, err) <- Store.First user id ;;
      match err with
      | Some _ => JSON StatusNotFound (marshalMap "error" "User not found")
      | None => JSON StatusOK (marshalUser user)
      end
  end.

(** Create a new user *)
Definition createUser (c : Context) : St Response :=
  let user := zeroUser in
  match Bind c user with
  | None => JSON StatusBadRequest (marshalMap "error" "Invalid request")
  | Some user =>
      if String.eqb (Name user) "" || String.eqb (Birthday user) "" then
        JSON StatusBadRequest
             (marshalMap "error" "Name and Birthday are required")
      else
        '(user, err) <- Store.Create user ;;
        match err with
        | Some _ =>
            JSON StatusInternalServerError
                 (marshalMap "error" "Failed to create user")
        | None => JSON StatusCreated (marshalUser user)
        end
  end.

(** Update an existing user *)
Definition updateUser (c : Context) : St Response :=
  match strconv.Atoi (Param c "id") with
  | inr _ => JSON StatusBadRequest (marshalMap "error" "Invalid user ID")
  | inl id =>
      let user := zeroUser in
      '(user, err) <- Store.First user id ;;
      match err with
      | Some _ => JSON StatusNotFound (marshalMap "error" "User not found")
      | None =>
          let updatedUser := zeroUser in
          match Bind c updatedUser with
          | None =>
              JSON StatusBadRequest (marshalMap "error" "Invalid request")
          | Some updatedUser =>
              (* Update user fields if provided *)
              let user :=
                if negb (String.eqb (Name updatedUser) "")
                then setName (Name updatedUser) user else user in
              let user :=
                if negb (String.eqb (Birthday updatedUser) "")
                then setBirthday (Birthday updatedUser) user else user in
              '(user, err) <- Store.Save user ;;
              match err with
              | Some _ =>
                  JSON StatusInternalServerError
                       (marshalMap "error" "Failed to update user")
              | None => JSON StatusOK (marshalUser user)
              end
          end
      end
  end.

(** Delete a user *)
Definition deleteUser (c : Context) : St Response :=
  match strconv.Atoi (Param c "id") with
  | inr _ => JSON StatusBadRequest (marshalMap "error" "Invalid user ID")
  | inl id =>
      let user := zeroUser in
      '(user, err) <- Store.First user id ;;
      match err with
      | Some _ => JSON StatusNotFound (marshalMap "error" "User not found")
      | None =>
          '(user, err) <- Store.Delete user ;;
          match err with
          | Some _ =>
              JSON StatusInternalServerError
                   (marshalMap "error" "Failed to delete user")
          | None =>
              JSON StatusOK (marshalMap "message" "User deleted successfully")
          end
      end
  end.

(** ** The router *)

(** The five routes registered in [main]. *)
Inductive Route : Type :=
| ListUsers     (* GET /users *)
| GetUser       (* GET /users/:id *)
| CreateUser    (* POST /users *)
| UpdateUser    (* PUT /users/:id *)
| DeleteUser.   (* DELETE /users/:id *)

Definition handler (r : Route) : Context -> St Response :=
  match r with
  | ListUsers => getUsers
  | GetUser => getUser
  | CreateUser => createUser
  | UpdateUser => updateUser
  | DeleteUser => deleteUser
  end.

(** The database after a sequence of requests served one after the other. *)
Fixpoint serveAll (reqs : list (Route * Context)) (db : DB) : DB :=
  match reqs with
  | [] => db
  | (r, c) :: rest => serveAll rest (snd (handler r c db))
  end.

(** ** Vocabulary of the specification *)

Definition errorBody (msg : string) : json := marshalMap "error" msg.

(** The record [updateUser] saves: the loaded record [u] with the name and
    the birthday of the decoded body [p] laid over it where they are not
    empty. *)
Definition overlay (p u : User) : User :=
  mkUser (ID u)
         (if String.eqb (Name p) "" then Name u else Name p)
         (if String.eqb (Birthday p) "" then Birthday u else Birthday p).

(** The error a store call reports on [db], if any. *)
Definition errorOf {A : Type} (call : St (Outcome A)) (db : DB)
  : option Error :=
  snd (fst (call db)).

(** The persisted state: the rows, and the state of the [id] generator. *)
Definition persisted (db : DB) : list User * N := (rows db, sequence db).

(** Every row has its primary key: GORM reads a zero [ID] as no key at
    all, and neither generator hands out zero. *)
Definition keyed (db : DB) : Prop := ~ In 0 (ids db).

(** Both required fields are filled in. *)
Definition complete (u : User) : Prop :=
  Name u <> "" /\ Birthday u <> "".

(** The invariant of the data model: unique [id]s, and no row with an empty
    name or birthday. *)
Definition Inv (db : DB) : Prop :=
  NoDup (ids db) /\ Forall complete (rows db).

(** Decimal numerals, as the specification speaks of them. *)
Definition isDigit (c : ascii) : bool :=
  (48 <=? N_of_ascii c) && (N_of_ascii c <=? 57).

Fixpoint digitsValue (s : string) (acc : N) : option N :=
  match s with
  | EmptyString => Some acc
  | String c rest =>
      if isDigit c then digitsValue rest (acc * 10 + (N_of_ascii c - 48))
      else None
  end.

(** A non-negative integer: one or more digits, no sign. *)
Definition numeral (s : string) : option N :=
  match s with
  | EmptyString => None
  | _ => digitsValue s 0
  end.

(** An integer: a numeral, after at most one sign. *)
Definition signedNumeral (s : string) : option Z :=
  match s with
  | EmptyString => None
  | String c rest =>
      if Ascii.eqb c "+" then option_map Z.of_N (numeral rest)
      else if Ascii.eqb c "-"
      then option_map (fun n => (- Z.of_N n)%Z) (numeral rest)
      else option_map Z.of_N (numeral s)
  end.

(** The request used in the examples: path parameter [id], and a body. *)
Definition ctx (id : string) (p : Payload) : Context :=
  mkContext [("id", id)] p.

(** A table with two rows, used in the examples. *)
Definition ada : User := mkUser 1 "Ada" "1815-12-10".
Definition alan : User := mkUser 2 "Alan" "1912-06-23".
Definition db0 : DB := mkDB Sqlite [ada; alan] 2 [].

(** The same table behind a connection that fails the next call, and behind
    one that fails the call after the next. *)
Definition offline : DB := setOutages [true] db0.
Definition flaky : DB := setOutages [false; true] db0.

(** * Properties *)

Unset Implicit Arguments.

(** ** The store calls, as equations *)

Section StoreEquations.

Variable db : DB.

Lemma Find_eq (dest : slice User) :
  Store.Find dest db =
  (if down db then (dest, Some ErrBadConn) else (mkSlice (rows db), None),
   tick db).
Proof. unfold Store.Find, Store.dial, bind, get, put, ret. now destruct (down db). Qed.

Lemma First_eq (dest : User) (id : Z) :
  Store.First dest id db =
  (if down db then (dest, Some ErrBadConn)
   else match byID id (rows db) with
        | Some r => (r, None)
        | None => (dest, Some ErrRecordNotFound)
        end,
   tick db).
Proof.
  unfold Store.First, Store.dial, bind, get, put, ret.
  destruct (down db); [reflexivity|].
  cbn [rows tick setOutages]. now destruct (byID id (rows db)).
Qed.

Lemma Create_eq (u : User) :
  Store.Create u db =
  if down db then ((u, Some ErrBadConn), tick db) else Store.insert u (tick db).
Proof. unfold Store.Create, Store.dial, bind, get, put, ret. now destruct (down db). Qed.

Lemma Save_eq (u : User) :
  Store.Save u db =
  if down db then ((u, Some ErrBadConn), tick db)
  else if ID u =? 0 then Store.insert u (tick db)
  else if hasID (ID u) (rows db)
       then ((u, None), setRows (replaceRow u (rows db)) (tick db))
       else Store.insert u (tick db).
Proof.
  unfold Store.Save, Store.dial, bind, get, put, ret.
  destruct (down db); [reflexivity|].
  destruct (ID u =? 0); [reflexivity|].
  cbn [rows tick setOutages]. now destruct (hasID (ID u) (rows db)).
Qed.

Lemma Delete_eq (u : User) :
  Store.Delete u db =
  if down db then ((u, Some ErrBadConn), tick db)
  else if ID u =? 0 then ((u, Some ErrMissingWhereClause), tick db)
  else ((u, None), setRows (deleteRow (ID u) (rows db)) (tick db)).
Proof.
  unfold Store.Delete, Store.dial, bind, get, put, ret.
  destruct (down db); [reflexivity|]. now destruct (ID u =? 0).
Qed.

End StoreEquations.

(** ** The handlers, as equations *)

Lemma getUsers_eq (c : Context) (db : DB) :
  getUsers c db =
  (if down db
   then mkResponse StatusInternalServerError (errorBody "Failed to fetch users")
   else mkResponse StatusOK (JArr (map marshalUser (rows db))),
   tick db).
Proof.
  unfold getUsers, bind. rewrite Find_eq. now destruct (down db).
Qed.

Lemma getUser_eq (c : Context) (db : DB) :
  getUser c db =
  match strconv.Atoi (Param c "id") with
  | inr _ => (mkResponse StatusBadRequest (errorBody "Invalid user ID"), db)
  | inl id =>
      (if down db
       then mkResponse StatusNotFound (errorBody "User not found")
       else match byID id (rows db) with
            | Some r => mkResponse StatusOK (marshalUser r)
            | None => mkResponse StatusNotFound (errorBody "User not found")
            end,
       tick db)
  end.
Proof.
  unfold getUser, bind. destruct (strconv.Atoi _); [|reflexivity].
  rewrite First_eq. destruct (down db); [reflexivity|].
  now destruct (byID z (rows db)).
Qed.

Lemma createUser_eq (c : Context) (db : DB) :
  createUser c db =
  match Bind c zeroUser with
  | None => (mkResponse StatusBadRequest (errorBody "Invalid request"), db)
  | Some u =>
      if String.eqb (Name u) "" || String.eqb (Birthday u) "" then
        (mkResponse StatusBadRequest
                    (errorBody "Name and Birthday are required"), db)
      else
        let '(u', err, db') := Store.Create u db in
        (match err with
         | Some _ => mkResponse StatusInternalServerError
                                (errorBody "Failed to create user")
         | None => mkResponse StatusCreated (marshalUser u')
         end, db')
  end.
Proof.
  unfold createUser, bind. destruct (Bind c zeroUser) as [u|]; [|reflexivity].
  destruct (_ || _); [reflexivity|].
  destruct (Store.Create u db) as [[u' [e|]] db']; reflexivity.
Qed.

Lemma overlay_eq (p u : User) :
  (if negb (String.eqb (Birthday p) "")
   then setBirthday (Birthday p)
          (if negb (String.eqb (Name p) "") then setName (Name p) u else u)
   else if negb (String.eqb (Name p) "") then setName (Name p) u else u)
  = overlay p u.
Proof.
  unfold overlay, setBirthday, setName.
  destruct u as [i n b]; cbn.
  destruct (String.eqb (Name p) ""), (String.eqb (Birthday p) ""); reflexivity.
Qed.

Lemma updateUser_eq (c : Context) (db : DB) :
  updateUser c db =
  match strconv.Atoi (Param c "id") with
  | inr _ => (mkResponse StatusBadRequest (errorBody "Invalid user ID"), db)
  | inl id =>
      if down db
      then (mkResponse StatusNotFound (errorBody "User not found"), tick db)
      else
        match byID id (rows db) with
        | None =>
            (mkResponse StatusNotFound (errorBody "User not found"), tick db)
        | Some u =>
            match Bind c zeroUser with
            | None => (mkResponse StatusBadRequest
                                  (errorBody "Invalid request"), tick db)
            | Some p =>
                let '(u', err, db') := Store.Save (overlay p u) (tick db) in
                (match err with
                 | Some _ => mkResponse StatusInternalServerError
                                        (errorBody "Failed to update user")
                 | None => mkResponse StatusOK (marshalUser u')
                 end, db')
            end
        end
  end.
Proof.
  unfold updateUser, bind. destruct (strconv.Atoi _) as [id|]; [|reflexivity].
  rewrite First_eq. destruct (down db); [reflexivity|].
  destruct (byID id (rows db)) as [u|]; [|reflexivity].
  destruct (Bind c zeroUser) as [p|]; [|reflexivity].
  rewrite overlay_eq.
  destruct (Store.Save (overlay p u) (tick db)) as [[u' [e|]] db']; reflexivity.
Qed.

Lemma deleteUser_eq (c : Context) (db : DB) :
  deleteUser c db =
  match strconv.Atoi (Param c "id") with
  | inr _ => (mkResponse StatusBadRequest (errorBody "Invalid user ID"), db)
  | inl id =>
      if down db
      then (mkResponse StatusNotFound (errorBody "User not found"), tick db)
      else
        match byID id (rows db) with
        | None =>
            (mkResponse StatusNotFound (errorBody "User not found"), tick db)
        | Some u =>
            let '(_, err, db') := Store.Delete u (tick db) in
            (match err with
             | Some _ => mkResponse StatusInternalServerError
                                    (errorBody "Failed to delete user")
             | None => mkResponse StatusOK
                         (marshalMap "message" "User deleted successfully")
             end, db')
        end
  end.
Proof.
  unfold deleteUser, bind. destruct (strconv.Atoi _) as [id|]; [|reflexivity].
  rewrite First_eq. destruct (down db); [reflexivity|].
  destruct (byID id (rows db)) as [u|]; [|reflexivity].
  destruct (Store.Delete u (tick db)) as [[u' [e|]] db']; reflexivity.
Qed.

(** ** What [strconv.Atoi] accepts *)

Section AtoiFacts.

Import strconv.

Lemma digitsValue_ge (s : string) : forall acc m,
  digitsValue s acc = Some m -> acc <= m.
Proof.
  induction s as [|c rest IH]; intros acc m H; cbn in H.
  - injection H as <-. lia.
  - destruct (isDigit c); [|discriminate].
    apply IH in H. lia.
Qed.

Lemma parseDigits_digitsValue (s : string) : forall n m,
  n <= maxUint64 ->
  (parseDigits s n = inl m <-> digitsValue s n = Some m /\ m <= maxUint64).
Proof.
  induction s as [|c rest IH]; intros n m Hn; cbn [parseDigits digitsValue].
  - split.
    + intros [= <-]. auto.
    + intros [[= <-] _]. reflexivity.
  - fold (isDigit c). destruct (isDigit c) eqn:Hd.
    2:{ split; [discriminate | intros [? _]; discriminate]. }
    unfold isDigit in Hd. apply andb_true_iff in Hd as [Hlo Hhi].
    apply N.leb_le in Hlo, Hhi.
    set (d := N_of_ascii c - 48) in *.
    assert (Hd9 : d <= 9) by (subst d; lia).
    change maxUint64 with 18446744073709551615 in *.
    change (18446744073709551615 / 10 + 1) with 1844674407370955162.
    change (2 ^ 64) with 18446744073709551616.
    destruct (N.leb_spec 1844674407370955162 n) as [Hcut|Hcut].
    { split; [discriminate|]. intros [H Hm].
      apply digitsValue_ge in H. lia. }
    rewrite (N.mod_small (n * 10)) by lia.
    destruct (N.lt_ge_cases (n * 10 + d) 18446744073709551616) as [Hfit|Hwrap].
    + rewrite N.mod_small by exact Hfit.
      replace (n * 10 + d <? n * 10) with false
        by (symmetry; apply N.ltb_ge; lia).
      replace (18446744073709551615 <? n * 10 + d) with false
        by (symmetry; apply N.ltb_ge; lia).
      cbn [orb]. apply IH. lia.
    + assert (Hm : (n * 10 + d) mod 18446744073709551616
                   = n * 10 + d - 18446744073709551616).
      { symmetry. apply N.mod_unique with (q := 1); lia. }
      rewrite Hm.
      replace (n * 10 + d - 18446744073709551616 <? n * 10) with true
        by (symmetry; apply N.ltb_lt; lia).
      cbn [orb]. split; [discriminate|]. intros [H Hle].
      apply digitsValue_ge in H. lia.
Qed.

Lemma ParseUint_numeral (s : string) (m : N) :
  ParseUint s = inl m <-> numeral s = Some m /\ m <= maxUint64.
Proof.
  destruct s as [|c rest].
  - cbn. split; [discriminate | intros [? _]; discriminate].
  - unfold ParseUint, numeral. apply parseDigits_digitsValue.
    unfold maxUint64. lia.
Qed.

(** One sign case of [ParseInt]: the digits [ds] are parsed, then their
    value is held against the range. *)
Ltac sign_case ds :=
  let un := fresh "un" in
  let HP := fresh "HP" in
  let Hn := fresh "Hn" in
  let H := fresh "H" in
  let m := fresh "m" in
  destruct (ParseUint ds) as [un|?] eqn:HP;
  [ apply ParseUint_numeral in HP as [Hn ?]; rewrite Hn; cbn;
    match goal with
    | |- context [N.leb ?a ?b] => destruct (N.leb_spec a b)
    | |- context [N.ltb ?a ?b] => destruct (N.ltb_spec a b)
    end;
    [ split; [discriminate|]; intros [[= <-] ?]; lia
    | split; [ intros [= <-]; split; [reflexivity | lia]
             | intros [[= <-] _]; reflexivity ] ]
  | split; [discriminate|]; intros [H ?];
    destruct (numeral ds) as [m|] eqn:Hn; [|discriminate];
    cbn in H; injection H as <-;
    assert (ParseUint ds = inl m)
      by (apply ParseUint_numeral; split;
          [assumption | unfold maxUint64; lia]);
    congruence ].

(** [Atoi] accepts exactly the signed numerals that fit a 64-bit [int]. *)
Lemma Atoi_signedNumeral (s : string) (z : Z) :
  Atoi s = inl z <->
  signedNumeral s = Some z /\ (- 2 ^ 63 <= z < 2 ^ 63)%Z.
Proof.
  unfold Atoi, ParseInt, signedNumeral.
  destruct s as [|c rest].
  { split; [discriminate | intros [? _]; discriminate]. }
  change (2 ^ (intSize - 1)) with 9223372036854775808.
  change (2 ^ 63)%Z with 9223372036854775808%Z.
  destruct (Ascii.eqb c "+") eqn:Hplus.
  - apply Ascii.eqb_eq in Hplus. subst c.
    change (Ascii.eqb "+" "-") with false. cbn [orb negb andb].
    sign_case rest.
  - destruct (Ascii.eqb c "-") eqn:Hminus; cbn [orb negb andb].
    + sign_case rest.
    + sign_case (String c rest).
Qed.

End AtoiFacts.

(** ** Facts about the table *)

Section TableFacts.

Lemma byID_Some (id : Z) (l : list User) (r : User) :
  byID id l = Some r -> In r l /\ Z.of_N (ID r) = id.
Proof.
  unfold byID. intros H. apply find_some in H as [Hin Heq].
  split; [assumption | now apply Z.eqb_eq].
Qed.

Lemma byID_None (id : Z) (l : list User) :
  byID id l = None <-> ~ In id (map (fun r => Z.of_N (ID r)) l).
Proof.
  unfold byID. induction l as [|r l IH]; cbn.
  - tauto.
  - destruct (Z.eqb_spec (Z.of_N (ID r)) id) as [E|E].
    + split; [discriminate | tauto].
    + rewrite IH. tauto.
Qed.

Lemma hasID_In (k : N) (l : list User) :
  hasID k l = true <-> In k (map ID l).
Proof.
  unfold hasID. rewrite existsb_exists, in_map_iff.
  split; intros [r [H1 H2]]; exists r.
  - apply N.eqb_eq in H2. tauto.
  - split; [tauto | apply N.eqb_eq; tauto].
Qed.

Lemma hasID_false (k : N) (l : list User) :
  hasID k l = false <-> ~ In k (map ID l).
Proof.
  rewrite <- hasID_In. destruct (hasID k l); split; congruence.
Qed.

Lemma byID_hasID (id : Z) (l : list User) (r : User) :
  byID id l = Some r -> hasID (ID r) l = true.
Proof.
  intros H. apply byID_Some in H as [Hin _].
  apply hasID_In, in_map, Hin.
Qed.

Lemma replaceRow_ids (u : User) (l : list User) :
  map ID (replaceRow u l) = map ID l.
Proof.
  unfold replaceRow. rewrite map_map. apply map_ext_in. intros r _.
  destruct (N.eqb_spec (ID r) (ID u)); congruence.
Qed.

Lemma replaceRow_twice (u : User) (l : list User) :
  replaceRow u (replaceRow u l) = replaceRow u l.
Proof.
  unfold replaceRow. rewrite map_map. apply map_ext. intros r.
  destruct (N.eqb_spec (ID r) (ID u)) as [E|E].
  - now rewrite N.eqb_refl.
  - now apply N.eqb_neq in E as ->.
Qed.

Lemma byID_replaceRow (id : Z) (u : User) (l : list User) :
  byID id (replaceRow u l) =
  option_map (fun r => if ID r =? ID u then u else r) (byID id l).
Proof.
  unfold byID, replaceRow. induction l as [|r l IH]; cbn; [reflexivity|].
  destruct (N.eqb_spec (ID r) (ID u)) as [E|E].
  - rewrite <- E at 1. destruct (Z.of_N (ID r) =? id)%Z; [|exact IH].
    cbn. now rewrite E, N.eqb_refl.
  - destruct (Z.of_N (ID r) =? id)%Z; [|exact IH].
    cbn. now apply N.eqb_neq in E as ->.
Qed.

Lemma replaceRow_others (u r : User) (l : list User) :
  In r l -> ID r <> ID u -> In r (replaceRow u l).
Proof.
  intros Hin Hne. unfold replaceRow. apply in_map_iff. exists r.
  apply N.eqb_neq in Hne. now rewrite Hne.
Qed.

Lemma deleteRow_ids (k : N) (l : list User) :
  map ID (deleteRow k l) = filter (fun i => negb (i =? k)) (map ID l).
Proof.
  unfold deleteRow. induction l as [|r l IH]; cbn; [reflexivity|].
  destruct (ID r =? k); cbn; [exact IH | now rewrite IH].
Qed.

Lemma deleteRow_gone (k : N) (l : list User) :
  ~ In k (map ID (deleteRow k l)).
Proof.
  rewrite deleteRow_ids, filter_In. intros [_ H].
  now rewrite N.eqb_refl in H.
Qed.

Lemma byID_deleteRow (id : Z) (k : N) (l : list User) :
  Z.of_N k = id -> byID id (deleteRow k l) = None.
Proof.
  intros <-. apply byID_None. rewrite <- (map_map ID Z.of_N), in_map_iff.
  intros [i [Hi Hin]]. apply N2Z.inj in Hi. subst i.
  now apply deleteRow_gone in Hin.
Qed.

Lemma deleteRow_others (k : N) (r : User) (l : list User) :
  In r (deleteRow k l) <-> In r l /\ ID r <> k.
Proof.
  unfold deleteRow. rewrite filter_In, negb_true_iff, N.eqb_neq. tauto.
Qed.

Lemma NoDup_snoc (k : N) (l : list N) :
  NoDup l -> ~ In k l -> NoDup (l ++ [k]).
Proof.
  intros Hl Hk. apply NoDup_app.
  - exact Hl.
  - repeat constructor. intros [].
  - intros x Hx [<-|[]]. contradiction.
Qed.

Lemma maxID_ge (l : list User) (r : User) : In r l -> ID r <= maxID l.
Proof.
  unfold maxID. induction l as [|x l IH]; cbn; [contradiction|].
  intros [<-|H]; [lia | apply IH in H; lia].
Qed.

(** The generator of SQLite never proposes an [id] in use. *)
Lemma nextID_Sqlite_fresh (db : DB) :
  dialect db = Sqlite -> hasID (nextID db) (rows db) = false.
Proof.
  intros Hd. apply hasID_false. unfold nextID. rewrite Hd.
  rewrite in_map_iff. intros [r [Hr Hin]]. apply maxID_ge in Hin. lia.
Qed.

End TableFacts.

(** ** What the store keeps true *)

Section StoreInvariants.

Lemma insert_eq (u : User) (db : DB) :
  Store.insert u db =
  if ID u =? 0 then
    if 2 ^ 63 <=? nextID db then ((u, Some ErrOutOfRange), db)
    else if hasID (nextID db) (rows db)
    then ((u, Some ErrDuplicatedKey), setSequence (nextID db) db)
    else ((setID (nextID db) u, None),
          setRows (rows db ++ [setID (nextID db) u])
                  (setSequence (nextID db) db))
  else if 2 ^ 63 <=? ID u then ((u, Some ErrOutOfRange), db)
  else if hasID (ID u) (rows db) then ((u, Some ErrDuplicatedKey), db)
  else ((u, None),
        setRows (rows db ++ [u])
                (setSequence match dialect db with
                             | Postgres => sequence db
                             | Sqlite => N.max (sequence db) (ID u)
                             end db)).
Proof.
  unfold Store.insert, bind, get, put, ret.
  destruct (ID u =? 0).
  - destruct (2 ^ 63 <=? nextID db); [reflexivity|].
    cbn [rows setSequence]. now destruct (hasID (nextID db) (rows db)).
  - destruct (2 ^ 63 <=? ID u); [reflexivity|].
    now destruct (hasID (ID u) (rows db)).
Qed.

(** A call either leaves the rows alone or appends one row whose [id] was
    not in use and is not zero. *)
Lemma insert_rows (u : User) (db : DB) :
  rows (snd (Store.insert u db)) = rows db \/
  exists k, k <> 0 /\ ~ In k (ids db) /\
            rows (snd (Store.insert u db)) = (rows db ++ [setID k u])%list.
Proof.
  rewrite insert_eq. destruct (N.eqb_spec (ID u) 0) as [E|E].
  - destruct (2 ^ 63 <=? nextID db); [now left|].
    destruct (hasID _ _) eqn:H; [now left|]. right.
    exists (nextID db). split; [|split].
    + unfold nextID. destruct (dialect db); lia.
    + now apply hasID_false.
    + reflexivity.
  - destruct (2 ^ 63 <=? ID u); [now left|].
    destruct (hasID _ _) eqn:H; [now left|]. right.
    exists (ID u). split; [exact E|split].
    + now apply hasID_false.
    + cbn. now destruct u.
Qed.

Lemma Save_rows (u : User) (db : DB) :
  rows (snd (Store.Save u db)) = rows db \/
  rows (snd (Store.Save u db)) = replaceRow u (rows db) \/
  exists k, k <> 0 /\ ~ In k (ids db) /\
            rows (snd (Store.Save u db)) = (rows db ++ [setID k u])%list.
Proof.
  rewrite Save_eq. destruct (down db); [now left|].
  destruct (ID u =? 0).
  - destruct (insert_rows u (tick db)) as [H|H]; [now left | now right; right].
  - destruct (hasID _ _); [now right; left|].
    destruct (insert_rows u (tick db)) as [H|H]; [now left | now right; right].
Qed.

Lemma Delete_rows (u : User) (db : DB) :
  rows (snd (Store.Delete u db)) = rows db \/
  rows (snd (Store.Delete u db)) = deleteRow (ID u) (rows db).
Proof.
  rewrite Delete_eq. destruct (down db); [now left|].
  destruct (ID u =? 0); [now left | now right].
Qed.

Lemma complete_setID (k : N) (u : User) : complete u -> complete (setID k u).
Proof. now unfold complete. Qed.

Lemma complete_overlay (p u : User) : complete u -> complete (overlay p u).
Proof.
  unfold complete, overlay. intros [Hn Hb]. cbn.
  destruct (String.eqb_spec (Name p) ""), (String.eqb_spec (Birthday p) "");
    tauto.
Qed.

Lemma overlay_twice (p u : User) : overlay p (overlay p u) = overlay p u.
Proof.
  unfold overlay. cbn.
  destruct (String.eqb (Name p) ""), (String.eqb (Birthday p) "");
    reflexivity.
Qed.

(** The three shapes the rows can take after a call, each of which keeps
    the invariants. *)
Lemma Inv_rows (db db' : DB) (u : User) :
  Inv db -> complete u ->
  rows db' = rows db \/
  rows db' = replaceRow u (rows db) \/
  rows db' = deleteRow (ID u) (rows db) \/
  (exists k, k <> 0 /\ ~ In k (ids db) /\ rows db' = (rows db ++ [setID k u])%list) ->
  Inv db'.
Proof.
  unfold Inv, ids. intros [Hnd Hall] Hu [H|[H|[H|[k [_ [Hk H]]]]]]; rewrite H.
  - tauto.
  - rewrite replaceRow_ids. split; [exact Hnd|].
    unfold replaceRow. rewrite Forall_map. eapply Forall_impl; [|exact Hall].
    intros r Hr. now destruct (ID r =? ID u).
  - rewrite deleteRow_ids. split; [now apply NoDup_filter|].
    unfold deleteRow. rewrite Forall_forall in *. intros r Hr.
    apply filter_In in Hr. now apply Hall.
  - rewrite map_app. cbn. split; [now apply NoDup_snoc|].
    apply Forall_app. split; [exact Hall|].
    constructor; [now apply complete_setID | constructor].
Qed.

Lemma keyed_rows (db db' : DB) (u : User) :
  keyed db ->
  rows db' = rows db \/
  rows db' = replaceRow u (rows db) \/
  rows db' = deleteRow (ID u) (rows db) \/
  (exists k, k <> 0 /\ ~ In k (ids db) /\ rows db' = (rows db ++ [setID k u])%list) ->
  keyed db'.
Proof.
  unfold keyed, ids. intros Hz [H|[H|[H|[k [Hk0 [Hk H]]]]]]; rewrite H.
  - exact Hz.
  - now rewrite replaceRow_ids.
  - rewrite deleteRow_ids, filter_In. tauto.
  - rewrite map_app, in_app_iff. cbn. intros [?|[?|[]]]; [tauto | congruence].
Qed.

End StoreInvariants.

(** * The claims *)

(** ** List *)

(** C3, as stated, fails: when the read does not reach the database, List
    answers 500 with an error object, not 200 with an array. *)
Lemma getUsers_store_down :
  fst (getUsers (mkContext [] Malformed) offline) =
    mkResponse StatusInternalServerError
               (JObj [("error", JStr "Failed to fetch users")])
  /\ fst (getUsers (mkContext [] Malformed)
                   (setOutages [true] (migrated Sqlite))) =
    mkResponse StatusInternalServerError
               (JObj [("error", JStr "Failed to fetch users")]).
Proof. split; reflexivity. Qed.

(** C3 (amended): List answers 200 with the JSON array of all persisted
    Users whenever the read of the table succeeds, and 500 with an error
    object when it fails; on success the body is the empty array when there
    are no Users, and never [null]; either way nothing persisted changes. *)
Theorem getUsers_lists_rows (c : Context) (db : DB) :
  (errorOf (Store.Find nilSlice) db = None ->
   fst (getUsers c db) = mkResponse StatusOK (JArr (map marshalUser (rows db)))
   /\ (rows db = [] -> body (fst (getUsers c db)) = JArr [])
   /\ body (fst (getUsers c db)) <> JNull)
  /\ (errorOf (Store.Find nilSlice) db <> None ->
      fst (getUsers c db) =
      mkResponse StatusInternalServerError
                 (JObj [("error", JStr "Failed to fetch users")]))
  /\ persisted (snd (getUsers c db)) = persisted db.
Proof.
  unfold errorOf. rewrite getUsers_eq, Find_eq.
  destruct (down db); cbn [fst snd body]; repeat apply conj.
  - discriminate.
  - reflexivity.
  - reflexivity.
  - intros _. repeat apply conj.
    + reflexivity.
    + now intros ->.
    + discriminate.
  - intros H. now contradiction H.
  - reflexivity.
Qed.

Lemma getUsers_lists_rows_witness :
  fst (getUsers (mkContext [] Malformed) (migrated Postgres)) =
    mkResponse StatusOK (JArr [])
  /\ fst (getUsers (mkContext [] Malformed) db0) =
    mkResponse StatusOK (JArr [marshalUser ada; marshalUser alan])
  /\ fst (getUsers (mkContext [] Malformed) offline) =
    mkResponse StatusInternalServerError
               (JObj [("error", JStr "Failed to fetch users")]).
Proof.
  repeat apply conj.
  - apply (proj1 (getUsers_lists_rows (mkContext [] Malformed)
                    (migrated Postgres))).
    reflexivity.
  - apply (proj1 (getUsers_lists_rows (mkContext [] Malformed) db0)).
    reflexivity.
  - apply (proj1 (proj2 (getUsers_lists_rows (mkContext [] Malformed)
                           offline))).
    discriminate.
Defined.

(** ** Create *)

(** C6: a Create whose body cannot be decoded, or decodes to an empty name
    or an empty birthday, answers 400 and leaves the database as it was, so
    that List answers what it answered before. *)
Theorem createUser_rejects (c : Context) (db : DB) :
  Bind c zeroUser = None \/
  (exists u, Bind c zeroUser = Some u /\ (Name u = "" \/ Birthday u = "")) ->
  status (fst (createUser c db)) = StatusBadRequest
  /\ snd (createUser c db) = db
  /\ forall c', fst (getUsers c' (snd (createUser c db))) = fst (getUsers c' db).
Proof.
  intros H.
  assert (E : exists msg,
             createUser c db = (mkResponse StatusBadRequest msg, db)).
  { rewrite createUser_eq. destruct H as [->|[u [-> Hu]]].
    - eexists. reflexivity.
    - replace (String.eqb (Name u) "" || String.eqb (Birthday u) "")%bool
        with true.
      + eexists. reflexivity.
      + symmetry. apply orb_true_iff.
        destruct Hu as [Hu|Hu]; [left|right]; now apply String.eqb_eq. }
  destruct E as [msg ->]. cbn. auto.
Qed.

Lemma createUser_rejects_witness :
  status (fst (createUser (ctx "" Malformed) db0)) = StatusBadRequest
  /\ snd (createUser (ctx "" (Object None (Some "") (Some "1906-12-09"))) db0)
     = db0
  /\ snd (createUser (ctx "" (Object None (Some "Grace") None)) db0) = db0.
Proof.
  split; [|split].
  - apply (createUser_rejects (ctx "" Malformed) db0). left. reflexivity.
  - apply (createUser_rejects
             (ctx "" (Object None (Some "") (Some "1906-12-09"))) db0).
    right. eexists. split; [reflexivity|]. left. reflexivity.
  - apply (createUser_rejects (ctx "" (Object None (Some "Grace") None)) db0).
    right. eexists. split; [reflexivity|]. right. reflexivity.
Defined.

(** C5, as stated, fails: on a fresh database a Create whose body carries
    [ID] 42 answers 201 with id 42, where the store would have assigned 1,
    as it does for the same body without [ID]. *)
Lemma createUser_keeps_client_id :
  fst (createUser (ctx "" (Object (Some 42) (Some "Ada") (Some "1815-12-10")))
                  (migrated Postgres)) =
    mkResponse StatusCreated (marshalUser (mkUser 42 "Ada" "1815-12-10"))
  /\ fst (createUser (ctx "" (Object None (Some "Ada") (Some "1815-12-10")))
                     (migrated Postgres)) =
    mkResponse StatusCreated (marshalUser (mkUser 1 "Ada" "1815-12-10"))
  /\ nextID (migrated Postgres) = 1.
Proof. repeat split. Qed.

(** C5 (amended): the User returned with 201 carries the id the store
    generated when the body has no [ID] or [ID] zero, and the [ID] of the
    body otherwise; either way that id was in use by no other User, and the
    returned User is the row appended to the table. *)
Theorem createUser_id (c : Context) (db : DB) (u : User) :
  Bind c zeroUser = Some u ->
  status (fst (createUser c db)) = StatusCreated ->
  let k := if ID u =? 0 then nextID db else ID u in
  fst (createUser c db) = mkResponse StatusCreated (marshalUser (setID k u))
  /\ ~ In k (ids db)
  /\ rows (snd (createUser c db)) = (rows db ++ [setID k u])%list.
Proof.
  intros HB. rewrite createUser_eq, HB.
  destruct (_ || _)%bool; [discriminate|].
  rewrite Create_eq. destruct (down db); [discriminate|].
  rewrite insert_eq. change (nextID (tick db)) with (nextID db).
  change (rows (tick db)) with (rows db).
  destruct (ID u =? 0).
  - destruct (2 ^ 63 <=? nextID db); [discriminate|].
    destruct (hasID (nextID db) (rows db)) eqn:H; [discriminate|].
    intros _. cbn. repeat split. now apply hasID_false.
  - destruct (2 ^ 63 <=? ID u); [discriminate|].
    destruct (hasID (ID u) (rows db)) eqn:H; [discriminate|].
    intros _. cbn. destruct u as [i n b]. repeat split. now apply hasID_false.
Qed.

Lemma createUser_id_witness :
  fst (createUser (ctx "" (Object None (Some "Grace") (Some "1906-12-09")))
                  db0) =
    mkResponse StatusCreated (marshalUser (mkUser 3 "Grace" "1906-12-09"))
  /\ fst (createUser (ctx "" (Object (Some 7) (Some "Grace")
                                     (Some "1906-12-09"))) db0) =
    mkResponse StatusCreated (marshalUser (mkUser 7 "Grace" "1906-12-09")).
Proof.
  split.
  - apply (createUser_id
             (ctx "" (Object None (Some "Grace") (Some "1906-12-09"))) db0
             (mkUser 0 "Grace" "1906-12-09")); reflexivity.
  - apply (createUser_id
             (ctx "" (Object (Some 7) (Some "Grace") (Some "1906-12-09"))) db0
             (mkUser 7 "Grace" "1906-12-09")); reflexivity.
Defined.

(** ** Get *)

(** C4, as stated, fails in both directions: ["-1"] is not a non-negative
    integer and Get answers 404, not 400; 2^63 is one and Get answers
    400. *)
Lemma getUser_negative_id :
  numeral "-1" = None
  /\ status (fst (getUser (ctx "-1" Malformed) db0)) = StatusNotFound
  /\ numeral "9223372036854775808" = Some 9223372036854775808
  /\ status (fst (getUser (ctx "9223372036854775808" Malformed) db0))
     = StatusBadRequest.
Proof. repeat split. Qed.

(** C4 (amended): Get answers 400 exactly when [id] is not a decimal
    integer, with at most one sign, in the range of a 64-bit [int]; when it
    is one, negative or not, and no User has that id, Get answers 404. *)
Theorem getUser_id_status (c : Context) (db : DB) :
  (status (fst (getUser c db)) = StatusBadRequest <->
   ~ exists z, signedNumeral (Param c "id") = Some z
               /\ (- 2 ^ 63 <= z < 2 ^ 63)%Z)
  /\ (forall z, signedNumeral (Param c "id") = Some z ->
                (- 2 ^ 63 <= z < 2 ^ 63)%Z ->
                byID z (rows db) = None ->
                status (fst (getUser c db)) = StatusNotFound).
Proof.
  rewrite getUser_eq. split.
  - destruct (strconv.Atoi (Param c "id")) as [z|e] eqn:HA.
    + split.
      * destruct (down db); [discriminate|].
        destruct (byID z (rows db)); discriminate.
      * intros H. exfalso. apply H. exists z.
        now apply Atoi_signedNumeral.
    + split; [|reflexivity]. intros _ [z Hz].
      apply Atoi_signedNumeral in Hz. congruence.
  - intros z Hs Hr Hnone.
    rewrite (proj2 (Atoi_signedNumeral (Param c "id") z) (conj Hs Hr)).
    rewrite Hnone. now destruct (down db).
Qed.

Lemma getUser_id_status_witness :
  status (fst (getUser (ctx "-7" Malformed) db0)) = StatusNotFound
  /\ (status (fst (getUser (ctx "abc" Malformed) db0)) = StatusBadRequest <->
      ~ exists z, signedNumeral "abc" = Some z /\ (- 2 ^ 63 <= z < 2 ^ 63)%Z).
Proof.
  split.
  - apply (proj2 (getUser_id_status (ctx "-7" Malformed) db0) (-7)%Z).
    + reflexivity.
    + lia.
    + reflexivity.
  - apply (proj1 (getUser_id_status (ctx "abc" Malformed) db0)).
Defined.

(** ** Storage errors *)




(** ** Update *)

Section UpdateFacts.

Lemma keyed_found (db : DB) (id : Z) (u : User) :
  keyed db -> byID id (rows db) = Some u ->
  ID u <> 0 /\ hasID (ID u) (rows db) = true.
Proof.
  intros Hz Hf. split.
  - apply byID_Some in Hf as [Hin _]. intros E. apply Hz.
    rewrite <- E. unfold ids. now apply in_map.
  - eapply byID_hasID, Hf.
Qed.

Lemma Save_existing (db : DB) (m : User) :
  ID m <> 0 -> hasID (ID m) (rows db) = true ->
  Store.Save m db =
  if down db then ((m, Some ErrBadConn), tick db)
  else ((m, None), setRows (replaceRow m (rows db)) (tick db)).
Proof.
  intros Hz Hh. rewrite Save_eq. apply N.eqb_neq in Hz. now rewrite Hz, Hh.
Qed.

Lemma replaceRow_others_iff (u r : User) (l : list User) :
  ID r <> ID u -> (In r (replaceRow u l) <-> In r l).
Proof.
  intros Hne. split; [|intros H; now apply replaceRow_others].
  unfold replaceRow. rewrite in_map_iff. intros [x [Hx Hin]].
  destruct (ID x =? ID u); [congruence | now subst].
Qed.

(** Update of a User that is there, once its id and its body are read and
    the load has gone through: all hangs on the save. *)
Lemma updateUser_found (c : Context) (db : DB) (id : Z) (u p : User) :
  keyed db ->
  strconv.Atoi (Param c "id") = inl id ->
  byID id (rows db) = Some u ->
  Bind c zeroUser = Some p ->
  down db = false ->
  updateUser c db =
  if down (tick db)
  then (mkResponse StatusInternalServerError
                   (errorBody "Failed to update user"), tick (tick db))
  else (mkResponse StatusOK (marshalUser (overlay p u)),
        setRows (replaceRow (overlay p u) (rows db)) (tick (tick db))).
Proof.
  intros Hv HA Hf HB Hup. rewrite updateUser_eq, HA, Hup, Hf, HB.
  destruct (keyed_found db id u Hv Hf) as [Hz Hh].
  rewrite Save_existing by assumption.
  now destruct (down (tick db)).
Qed.

End UpdateFacts.

Lemma db0_keyed : keyed db0.
Proof. intros [H|[H|[]]]; discriminate. Qed.

(** C1, as stated, fails: the id is well formed, the body parses and User 2
    exists, but the save does not reach the database; Update answers 500,
    not 200, and nothing is persisted. *)
Lemma updateUser_save_failure :
  strconv.Atoi (Param (ctx "2" (Object None (Some "Alan M.") None)) "id")
  = inl 2%Z
  /\ Bind (ctx "2" (Object None (Some "Alan M.") None)) zeroUser
     = Some (mkUser 0 "Alan M." "")
  /\ byID 2 (rows flaky) = Some alan
  /\ fst (updateUser (ctx "2" (Object None (Some "Alan M.") None)) flaky)
     = mkResponse StatusInternalServerError
                  (JObj [("error", JStr "Failed to update user")])
  /\ rows (snd (updateUser (ctx "2" (Object None (Some "Alan M.") None))
                           flaky))
     = rows flaky.
Proof. repeat split. Qed.

(** C1 (amended): for an Update with a well-formed integer id and a
    parsable body, the handler first loads the record, answering 404 and
    changing nothing when there is none or when the load fails; it then
    lays over the loaded record the name and the birthday of the body that
    are not empty, and saves the result: when the save goes through the
    answer is 200 with the merged User, which replaces the loaded one in the
    table, and when it does not the answer is 500 and nothing changes. *)
Theorem updateUser_load_overlay_save
        (c : Context) (db : DB) (id : Z) (p : User) :
  keyed db ->
  strconv.Atoi (Param c "id") = inl id ->
  Bind c zeroUser = Some p ->
  match byID id (rows db) with
  | None =>
      status (fst (updateUser c db)) = StatusNotFound
      /\ persisted (snd (updateUser c db)) = persisted db
  | Some u =>
      if down db then
        status (fst (updateUser c db)) = StatusNotFound
        /\ persisted (snd (updateUser c db)) = persisted db
      else if down (tick db) then
        status (fst (updateUser c db)) = StatusInternalServerError
        /\ persisted (snd (updateUser c db)) = persisted db
      else
        fst (updateUser c db) = mkResponse StatusOK (marshalUser (overlay p u))
        /\ rows (snd (updateUser c db)) = replaceRow (overlay p u) (rows db)
        /\ byID id (rows (snd (updateUser c db))) = Some (overlay p u)
  end.
Proof.
  intros Hv HA HB. destruct (byID id (rows db)) as [u|] eqn:Hf.
  - destruct (down db) eqn:Hup.
    + rewrite updateUser_eq, HA, Hup. now split.
    + rewrite (updateUser_found c db id u p) by assumption.
      destruct (down (tick db)); [now split|].
      cbn [fst snd rows setRows]. repeat split.
      rewrite byID_replaceRow, Hf. cbn. now rewrite N.eqb_refl.
  - rewrite updateUser_eq, HA, Hf. now destruct (down db).
Qed.

Lemma updateUser_load_overlay_save_witness :
  fst (updateUser (ctx "2" (Object (Some 9) (Some "") (Some "1912-06-24")))
                  db0)
  = mkResponse StatusOK (marshalUser (mkUser 2 "Alan" "1912-06-24"))
  /\ rows (snd (updateUser
                  (ctx "2" (Object (Some 9) (Some "") (Some "1912-06-24")))
                  db0))
     = [ada; mkUser 2 "Alan" "1912-06-24"]
  /\ byID 2 (rows (snd (updateUser
                  (ctx "2" (Object (Some 9) (Some "") (Some "1912-06-24")))
                  db0)))
     = Some (mkUser 2 "Alan" "1912-06-24").
Proof.
  apply (updateUser_load_overlay_save
           (ctx "2" (Object (Some 9) (Some "") (Some "1912-06-24"))) db0 2%Z
           (mkUser 9 "" "1912-06-24")).
  - exact db0_keyed.
  - reflexivity.
  - reflexivity.
Defined.

(** C10: an Update answered 200 replaces the User with the id of the path
    by a User with the same id, whatever [ID] the body carries, and leaves
    every other User, the ids in use and the id generator as they were; an
    Update answered 400 or 404 leaves the whole persisted state as it
    was. *)
Theorem updateUser_frame (c : Context) (db : DB) :
  keyed db ->
  (status (fst (updateUser c db)) = StatusOK ->
   exists id u u',
     strconv.Atoi (Param c "id") = inl id
     /\ byID id (rows db) = Some u
     /\ fst (updateUser c db) = mkResponse StatusOK (marshalUser u')
     /\ ID u' = ID u
     /\ rows (snd (updateUser c db)) = replaceRow u' (rows db)
     /\ ids (snd (updateUser c db)) = ids db
     /\ sequence (snd (updateUser c db)) = sequence db
     /\ forall r, ID r <> ID u ->
                  (In r (rows (snd (updateUser c db))) <-> In r (rows db)))
  /\ (status (fst (updateUser c db)) = StatusBadRequest \/
      status (fst (updateUser c db)) = StatusNotFound ->
      persisted (snd (updateUser c db)) = persisted db).
Proof.
  intros Hv. split.
  - intros H200.
    destruct (strconv.Atoi (Param c "id")) as [id|] eqn:HA;
      [|rewrite updateUser_eq, HA in H200; discriminate].
    destruct (down db) eqn:Hup;
      [rewrite updateUser_eq, HA, Hup in H200; discriminate|].
    destruct (byID id (rows db)) as [u|] eqn:Hf;
      [|rewrite updateUser_eq, HA, Hup, Hf in H200; discriminate].
    destruct (Bind c zeroUser) as [p|] eqn:HB;
      [|rewrite updateUser_eq, HA, Hup, Hf, HB in H200; discriminate].
    exists id, u, (overlay p u).
    rewrite (updateUser_found c db id u p) in * by assumption.
    destruct (down (tick db)); [discriminate|].
    cbn [fst snd rows setRows sequence tick setOutages].
    repeat apply conj; try reflexivity; try assumption.
    + unfold ids. cbn [rows setRows]. apply replaceRow_ids.
    + intros r Hr. now apply replaceRow_others_iff.
  - intros H. rewrite updateUser_eq in *.
    destruct (strconv.Atoi (Param c "id")) as [id|] eqn:HA; [|reflexivity].
    destruct (down db) eqn:Hup; [reflexivity|].
    destruct (byID id (rows db)) as [u|] eqn:Hf; [|reflexivity].
    destruct (Bind c zeroUser) as [p|] eqn:HB; [|reflexivity].
    destruct (keyed_found db id u Hv Hf) as [Hz Hh].
    rewrite Save_existing in * by assumption.
    destruct (down (tick db)); cbn in H; destruct H; discriminate.
Qed.


Lemma updateUser_frame_witness :
  (exists id u u',
     strconv.Atoi
       (Param (ctx "2" (Object (Some 9) (Some "Alan M.") None)) "id") = inl id
     /\ byID id (rows db0) = Some u
     /\ fst (updateUser (ctx "2" (Object (Some 9) (Some "Alan M.") None)) db0)
        = mkResponse StatusOK (marshalUser u')
     /\ ID u' = ID u
     /\ rows (snd (updateUser
                     (ctx "2" (Object (Some 9) (Some "Alan M.") None)) db0))
        = replaceRow u' (rows db0)
     /\ ids (snd (updateUser
                    (ctx "2" (Object (Some 9) (Some "Alan M.") None)) db0))
        = ids db0
     /\ sequence (snd (updateUser
                    (ctx "2" (Object (Some 9) (Some "Alan M.") None)) db0))
        = sequence db0
     /\ forall r, ID r <> ID u ->
          (In r (rows (snd (updateUser
                    (ctx "2" (Object (Some 9) (Some "Alan M.") None)) db0)))
           <-> In r (rows db0)))
  /\ persisted (snd (updateUser (ctx "7" (Object None (Some "X") None)) db0))
     = persisted db0.
Proof.
  split.
  - apply (proj1 (updateUser_frame
                    (ctx "2" (Object (Some 9) (Some "Alan M.") None)) db0
                    db0_keyed)).
    reflexivity.
  - apply (proj2 (updateUser_frame (ctx "7" (Object None (Some "X") None)) db0
                    db0_keyed)).
    right. reflexivity.
Defined.

(** C8, as stated, fails: User 2 exists and the payload is fixed, but the
    save of the first Update does not reach the database; the first request
    answers 500 and changes nothing, the same request sent again answers 200
    and renames the User, so that twice is not once. *)
Lemma updateUser_retry_after_failure :
  byID 2 (rows flaky) = Some alan
  /\ Bind (ctx "2" (Object None (Some "Alan M.") None)) zeroUser
     = Some (mkUser 0 "Alan M." "")
  /\ status (fst (updateUser (ctx "2" (Object None (Some "Alan M.") None))
                             flaky)) = StatusInternalServerError
  /\ rows (snd (updateUser (ctx "2" (Object None (Some "Alan M.") None))
                           flaky)) = [ada; alan]
  /\ rows (snd (updateUser (ctx "2" (Object None (Some "Alan M.") None))
                  (snd (updateUser
                          (ctx "2" (Object None (Some "Alan M.") None))
                          flaky))))
     = [ada; mkUser 2 "Alan M." "1912-06-23"]
  /\ persisted
       (snd (updateUser (ctx "2" (Object None (Some "Alan M.") None))
               (snd (updateUser (ctx "2" (Object None (Some "Alan M.") None))
                                flaky))))
     <> persisted
          (snd (updateUser (ctx "2" (Object None (Some "Alan M.") None))
                           flaky)).
Proof. repeat split. discriminate. Qed.

(** C8 (amended): once an Update has been answered 200, the same request
    sent again leaves the persisted state as the first left it, whether the
    second reaches the store or not, and when it does it answers what the
    first answered; an Update that is not answered 200 leaves the persisted
    state as it was. *)
Theorem updateUser_idempotent (c : Context) (db : DB) :
  keyed db ->
  (status (fst (updateUser c db)) = StatusOK ->
   persisted (snd (updateUser c (snd (updateUser c db))))
   = persisted (snd (updateUser c db))
   /\ (status (fst (updateUser c (snd (updateUser c db)))) = StatusOK ->
       fst (updateUser c (snd (updateUser c db))) = fst (updateUser c db)))
  /\ (status (fst (updateUser c db)) <> StatusOK ->
      persisted (snd (updateUser c db)) = persisted db).
Proof.
  intros Hv. split.
  - intros H200.
    destruct (strconv.Atoi (Param c "id")) as [id|] eqn:HA;
      [|rewrite updateUser_eq, HA in H200; discriminate].
    destruct (down db) eqn:Hup;
      [rewrite updateUser_eq, HA, Hup in H200; discriminate|].
    destruct (byID id (rows db)) as [u|] eqn:Hf;
      [|rewrite updateUser_eq, HA, Hup, Hf in H200; discriminate].
    destruct (Bind c zeroUser) as [p|] eqn:HB;
      [|rewrite updateUser_eq, HA, Hup, Hf, HB in H200; discriminate].
    rewrite (updateUser_found c db id u p) in * by assumption.
    destruct (down (tick db)); [discriminate|]. clear H200.
    cbn [fst snd].
    set (m := overlay p u).
    set (db1 := setRows (replaceRow m (rows db)) (tick (tick db))).
    assert (Hv1 : keyed db1).
    { apply (keyed_rows db db1 m Hv). right. left. reflexivity. }
    assert (Hf1 : byID id (rows db1) = Some m).
    { subst db1. cbn [rows setRows]. rewrite byID_replaceRow, Hf. cbn.
      now rewrite N.eqb_refl. }
    destruct (down db1) eqn:Hup1.
    + rewrite updateUser_eq, HA, Hup1. split; [reflexivity | discriminate].
    + rewrite (updateUser_found c db1 id m p) by assumption.
      assert (Hm : overlay p m = m) by apply overlay_twice.
      rewrite Hm.
      destruct (down (tick db1)).
      * split; [reflexivity | discriminate].
      * cbn [fst snd]. split; [|reflexivity].
        unfold persisted, db1. cbn [rows setRows sequence tick setOutages].
        now rewrite replaceRow_twice.
  - rewrite updateUser_eq.
    destruct (strconv.Atoi (Param c "id")) as [id|] eqn:HA; [|reflexivity].
    destruct (down db) eqn:Hup; [reflexivity|].
    destruct (byID id (rows db)) as [u|] eqn:Hf; [|reflexivity].
    destruct (Bind c zeroUser) as [p|] eqn:HB; [|reflexivity].
    destruct (keyed_found db id u Hv Hf) as [Hz Hh].
    rewrite Save_existing by assumption.
    destruct (down (tick db)); [reflexivity|].
    cbn [fst status]. intros H. now contradiction H.
Qed.

Lemma updateUser_idempotent_witness :
  persisted
    (snd (updateUser (ctx "1" (Object None None (Some "1816-01-01")))
            (snd (updateUser (ctx "1" (Object None None (Some "1816-01-01")))
                             db0))))
  = persisted
      (snd (updateUser (ctx "1" (Object None None (Some "1816-01-01"))) db0))
  /\ fst (updateUser (ctx "1" (Object None None (Some "1816-01-01")))
           (snd (updateUser (ctx "1" (Object None None (Some "1816-01-01")))
                            db0)))
     = fst (updateUser (ctx "1" (Object None None (Some "1816-01-01"))) db0)
  /\ persisted
       (snd (updateUser (ctx "1" (Object None None (Some "1816-01-01")))
                        flaky))
     = persisted flaky.
Proof.
  destruct (proj1 (updateUser_idempotent
                     (ctx "1" (Object None None (Some "1816-01-01"))) db0
                     db0_keyed) eq_refl) as [P R].
  repeat apply conj.
  - exact P.
  - exact (R eq_refl).
  - apply (proj2 (updateUser_idempotent
                    (ctx "1" (Object None None (Some "1816-01-01"))) flaky
                    db0_keyed)).
    discriminate.
Defined.

(** ** Delete *)

(** C9, as stated, fails: User 2 exists, but the delete does not reach the
    database; Delete answers 500, not 200, and the record stays. *)
Lemma deleteUser_delete_failure :
  byID 2 (rows flaky) = Some alan
  /\ fst (deleteUser (ctx "2" Malformed) flaky)
     = mkResponse StatusInternalServerError
                  (JObj [("error", JStr "Failed to delete user")])
  /\ byID 2 (rows (snd (deleteUser (ctx "2" Malformed) flaky))) = Some alan.
Proof. repeat split. Qed.

(** C9 (amended): for every existing id, when the find and the delete
    succeed, Delete answers 200 with the confirmation message and removes
    the record and no other, so that a following Get on that id answers 404
    and a following Delete on it answers 404 and removes nothing; when the
    delete fails the answer is 500 and the record stays, and when the find
    fails the answer is 404 and the record stays. *)
Theorem deleteUser_removes (c : Context) (db : DB) (id : Z) (u : User) :
  keyed db ->
  strconv.Atoi (Param c "id") = inl id ->
  byID id (rows db) = Some u ->
  if down db then
    (* the find fails *)
    errorOf (Store.First zeroUser id) db <> None
    /\ fst (deleteUser c db)
       = mkResponse StatusNotFound (JObj [("error", JStr "User not found")])
    /\ persisted (snd (deleteUser c db)) = persisted db
  else if down (tick db) then
    (* the find succeeds, the delete fails *)
    errorOf (Store.First zeroUser id) db = None
    /\ errorOf (Store.Delete u) (tick db) <> None
    /\ fst (deleteUser c db)
       = mkResponse StatusInternalServerError
                    (JObj [("error", JStr "Failed to delete user")])
    /\ persisted (snd (deleteUser c db)) = persisted db
    /\ byID id (rows (snd (deleteUser c db))) = Some u
  else
    (* both succeed *)
    errorOf (Store.First zeroUser id) db = None
    /\ errorOf (Store.Delete u) (tick db) = None
    /\ fst (deleteUser c db)
       = mkResponse StatusOK
                    (JObj [("message", JStr "User deleted successfully")])
    /\ rows (snd (deleteUser c db)) = deleteRow (ID u) (rows db)
    /\ (forall r, In r (rows (snd (deleteUser c db)))
                  <-> In r (rows db) /\ ID r <> ID u)
    /\ forall c', Param c' "id" = Param c "id" ->
         status (fst (getUser c' (snd (deleteUser c db)))) = StatusNotFound
         /\ status (fst (deleteUser c' (snd (deleteUser c db))))
            = StatusNotFound
         /\ persisted (snd (deleteUser c' (snd (deleteUser c db))))
            = persisted (snd (deleteUser c db)).
Proof.
  intros Hv HA Hf.
  destruct (keyed_found db id u Hv Hf) as [Hz _].
  apply N.eqb_neq in Hz.
  unfold errorOf. rewrite deleteUser_eq, HA, First_eq, Hf, Delete_eq, Hz.
  change (rows (tick db)) with (rows db).
  destruct (down db) eqn:Hup; cbn [fst snd].
  { repeat apply conj; [discriminate | reflexivity | reflexivity]. }
  destruct (down (tick db)) eqn:Hup2; cbn [fst snd rows setRows].
  { repeat apply conj; try reflexivity; try discriminate. exact Hf. }
  repeat apply conj; try reflexivity.
  - intros r. apply deleteRow_others.
  - intros c' Hc'.
    assert (Hgone : byID id (deleteRow (ID u) (rows db)) = None).
    { apply byID_deleteRow. now apply byID_Some in Hf. }
    rewrite getUser_eq, deleteUser_eq, Hc', HA. cbn [rows setRows].
    rewrite Hgone.
    destruct (down (setRows _ _)); repeat split.
Qed.

Lemma deleteUser_removes_witness :
  (fst (deleteUser (ctx "2" Malformed) db0)
   = mkResponse StatusOK (JObj [("message", JStr "User deleted successfully")])
   /\ rows (snd (deleteUser (ctx "2" Malformed) db0)) = [ada]
   /\ status (fst (getUser (ctx "2" Malformed)
                     (snd (deleteUser (ctx "2" Malformed) db0))))
      = StatusNotFound
   /\ status (fst (deleteUser (ctx "2" Malformed)
                     (snd (deleteUser (ctx "2" Malformed) db0))))
      = StatusNotFound)
  /\ (fst (deleteUser (ctx "2" Malformed) flaky)
      = mkResponse StatusInternalServerError
                   (JObj [("error", JStr "Failed to delete user")])
      /\ byID 2 (rows (snd (deleteUser (ctx "2" Malformed) flaky)))
         = Some alan)
  /\ fst (deleteUser (ctx "2" Malformed) offline)
     = mkResponse StatusNotFound (JObj [("error", JStr "User not found")]).
Proof.
  assert (H0 := deleteUser_removes (ctx "2" Malformed) db0 2%Z alan
                  db0_keyed eq_refl eq_refl).
  assert (H1 := deleteUser_removes (ctx "2" Malformed) flaky 2%Z alan
                  db0_keyed eq_refl eq_refl).
  assert (H2 := deleteUser_removes (ctx "2" Malformed) offline 2%Z alan
                  db0_keyed eq_refl eq_refl).
  cbn [down outages db0 flaky offline setOutages tick tl] in H0, H1, H2.
  destruct H0 as [_ [_ [R0 [W0 [_ N0]]]]].
  destruct H1 as [_ [_ [R1 [_ S1]]]].
  destruct H2 as [_ [R2 _]].
  destruct (N0 (ctx "2" Malformed) eq_refl) as [G0 [D0 _]].
  repeat apply conj; assumption.
Defined.

(** ** The invariant of the data model *)

Section Invariant.

Lemma Inv_migrated (d : Dialect) : Inv (migrated d).
Proof. split; constructor. Qed.

Lemma Inv_complete (db : DB) (id : Z) (u : User) :
  Inv db -> byID id (rows db) = Some u -> complete u.
Proof.
  intros [_ Hall] Hf. apply byID_Some in Hf as [Hin _].
  rewrite Forall_forall in Hall. now apply Hall.
Qed.

Lemma createUser_Inv (c : Context) (db : DB) :
  Inv db -> Inv (snd (createUser c db)).
Proof.
  intros HI. rewrite createUser_eq.
  destruct (Bind c zeroUser) as [u|]; [|exact HI].
  destruct (String.eqb_spec (Name u) "") as [|Hn]; [exact HI|].
  destruct (String.eqb_spec (Birthday u) "") as [|Hb]; [exact HI|].
  cbn [orb]. rewrite Create_eq.
  destruct (down db); [exact HI|].
  destruct (Store.insert u (tick db)) as [[u' err] db'] eqn:E.
  assert (H := insert_rows u (tick db)). rewrite E in H. cbn [snd] in *.
  apply (Inv_rows db db' u HI (conj Hn Hb)).
  destruct H as [H|H]; [now left | now right; right; right].
Qed.

Lemma updateUser_Inv (c : Context) (db : DB) :
  Inv db -> Inv (snd (updateUser c db)).
Proof.
  intros HI. rewrite updateUser_eq.
  destruct (strconv.Atoi (Param c "id")) as [id|]; [|exact HI].
  destruct (down db); [exact HI|].
  destruct (byID id (rows db)) as [u|] eqn:Hf; [|exact HI].
  destruct (Bind c zeroUser) as [p|]; [|exact HI].
  destruct (Store.Save (overlay p u) (tick db)) as [[u' err] db'] eqn:E.
  assert (H := Save_rows (overlay p u) (tick db)). rewrite E in H.
  cbn [snd] in *.
  apply (Inv_rows db db' (overlay p u) HI).
  - eapply complete_overlay, Inv_complete; eassumption.
  - destruct H as [H|[H|H]];
      [now left | now right; left | now right; right; right].
Qed.

Lemma deleteUser_Inv (c : Context) (db : DB) :
  Inv db -> Inv (snd (deleteUser c db)).
Proof.
  intros HI. rewrite deleteUser_eq.
  destruct (strconv.Atoi (Param c "id")) as [id|]; [|exact HI].
  destruct (down db); [exact HI|].
  destruct (byID id (rows db)) as [u|] eqn:Hf; [|exact HI].
  destruct (Store.Delete u (tick db)) as [[u' err] db'] eqn:E.
  assert (H := Delete_rows u (tick db)). rewrite E in H. cbn [snd] in *.
  apply (Inv_rows db db' u HI).
  - eapply Inv_complete; eassumption.
  - destruct H as [H|H]; [now left | now right; right; left].
Qed.

Lemma handler_Inv (r : Route) (c : Context) (db : DB) :
  Inv db -> Inv (snd (handler r c db)).
Proof.
  destruct r; cbn [handler].
  - rewrite getUsers_eq. auto.
  - rewrite getUser_eq. now destruct (strconv.Atoi _).
  - apply createUser_Inv.
  - apply updateUser_Inv.
  - apply deleteUser_Inv.
Qed.

(** Whatever requests a fresh database has served, and whichever of its
    calls failed, its ids are unique and no row has an empty field. *)
Lemma serveAll_Inv (reqs : list (Route * Context)) : forall db,
  Inv db -> Inv (serveAll reqs db).
Proof.
  induction reqs as [|[r c] rest IH]; intros db HI; cbn [serveAll].
  - exact HI.
  - apply IH, handler_Inv, HI.
Qed.

Lemma keyed_migrated (d : Dialect) : keyed (migrated d).
Proof. intros []. Qed.

Lemma handler_keyed (r : Route) (c : Context) (db : DB) :
  keyed db -> keyed (snd (handler r c db)).
Proof.
  intros Hv. destruct r; cbn [handler].
  - rewrite getUsers_eq. exact Hv.
  - rewrite getUser_eq. now destruct (strconv.Atoi _).
  - rewrite createUser_eq.
    destruct (Bind c zeroUser) as [u|]; [|exact Hv].
    destruct (_ || _)%bool; [exact Hv|]. rewrite Create_eq.
    destruct (down db); [exact Hv|].
    destruct (Store.insert u (tick db)) as [[u' err] db'] eqn:E.
    assert (H := insert_rows u (tick db)). rewrite E in H. cbn [snd] in *.
    apply (keyed_rows db db' u Hv).
    destruct H as [H|H]; [now left | now right; right; right].
  - rewrite updateUser_eq.
    destruct (strconv.Atoi (Param c "id")) as [id|]; [|exact Hv].
    destruct (down db); [exact Hv|].
    destruct (byID id (rows db)) as [u|]; [|exact Hv].
    destruct (Bind c zeroUser) as [p|]; [|exact Hv].
    destruct (Store.Save (overlay p u) (tick db)) as [[u' err] db'] eqn:E.
    assert (H := Save_rows (overlay p u) (tick db)). rewrite E in H.
    cbn [snd] in *. apply (keyed_rows db db' (overlay p u) Hv).
    destruct H as [H|[H|H]];
      [now left | now right; left | now right; right; right].
  - rewrite deleteUser_eq.
    destruct (strconv.Atoi (Param c "id")) as [id|]; [|exact Hv].
    destruct (down db); [exact Hv|].
    destruct (byID id (rows db)) as [u|]; [|exact Hv].
    destruct (Store.Delete u (tick db)) as [[u' err] db'] eqn:E.
    assert (H := Delete_rows u (tick db)). rewrite E in H. cbn [snd] in *.
    apply (keyed_rows db db' u Hv).
    destruct H as [H|H]; [now left | now right; right; left].
Qed.

(** The table behind the service stays [keyed] whatever it serves. *)
Lemma serveAll_keyed (reqs : list (Route * Context)) : forall db,
  keyed db -> keyed (serveAll reqs db).
Proof.
  induction reqs as [|[r c] rest IH]; intros db Hv; cbn [serveAll].
  - exact Hv.
  - apply IH, handler_keyed, Hv.
Qed.

Lemma db0_Inv : Inv db0.
Proof.
  split.
  - repeat constructor; cbn; intuition discriminate.
  - repeat constructor; discriminate.
Qed.

End Invariant.

(** C7: Create, Update and Delete each preserve the invariant that the ids
    of the persisted Users are unique and that no persisted User has an
    empty name or an empty birthday; a fresh database satisfies it, so every
    User that was created has both fields filled in, and Update never turns
    a filled-in field into an empty one. *)
Theorem handlers_preserve_Inv (c : Context) (db : DB) :
  Inv db ->
  Inv (snd (createUser c db))
  /\ Inv (snd (updateUser c db))
  /\ Inv (snd (deleteUser c db))
  /\ (forall p u, Name u <> "" -> Name (overlay p u) <> "")
  /\ (forall p u, Birthday u <> "" -> Birthday (overlay p u) <> "").
Proof.
  intros HI. split; [|split; [|split; [|split]]].
  - now apply createUser_Inv.
  - now apply updateUser_Inv.
  - now apply deleteUser_Inv.
  - intros p u Hu. unfold overlay. cbn.
    now destruct (String.eqb_spec (Name p) "").
  - intros p u Hu. unfold overlay. cbn.
    now destruct (String.eqb_spec (Birthday p) "").
Qed.

Lemma handlers_preserve_Inv_witness :
  Inv (snd (createUser (ctx "2" (Object None (Some "Grace") None)) db0))
  /\ Inv (snd (updateUser (ctx "2" (Object None (Some "Grace") None)) db0))
  /\ Inv (snd (deleteUser (ctx "2" (Object None (Some "Grace") None)) db0))
  /\ (forall p u, Name u <> "" -> Name (overlay p u) <> "")
  /\ (forall p u, Birthday u <> "" -> Birthday (overlay p u) <> "").
Proof.
  apply (handlers_preserve_Inv (ctx "2" (Object None (Some "Grace") None)) db0
           db0_Inv).
Defined.

(** * Further properties of the handlers *)

Section HandlerOutcomes.

Lemma In_ids_Z (k : N) (l : list User) :
  In (Z.of_N k) (map (fun r => Z.of_N (ID r)) l) <-> In k (map ID l).
Proof.
  rewrite !in_map_iff. split; intros [r [Hr Hin]]; exists r.
  - split; [now apply N2Z.inj | assumption].
  - split; [now rewrite Hr | assumption].
Qed.

Lemma byID_app (z : Z) (l : list User) (x : User) :
  byID z (l ++ [x]) =
  match byID z l with
  | Some r => Some r
  | None => if (Z.of_N (ID x) =? z)%Z then Some x else None
  end.
Proof.
  unfold byID. induction l as [|r l IH]; cbn; [reflexivity|].
  now destruct (Z.of_N (ID r) =? z)%Z.
Qed.

Lemma byID_deleteRow_other (z : Z) (k : N) (l : list User) :
  z <> Z.of_N k -> byID z (deleteRow k l) = byID z l.
Proof.
  intros Hne. unfold byID, deleteRow. induction l as [|r l IH]; cbn;
    [reflexivity|].
  destruct (N.eqb_spec (ID r) k) as [E|E]; cbn.
  - destruct (Z.eqb_spec (Z.of_N (ID r)) z) as [E'|E']; [|exact IH].
    congruence.
  - now rewrite IH.
Qed.

Lemma byID_replaceRow_other (z : Z) (u : User) (l : list User) :
  z <> Z.of_N (ID u) -> byID z (replaceRow u l) = byID z l.
Proof.
  intros Hne. rewrite byID_replaceRow.
  destruct (byID z l) as [r|] eqn:Hf; [|reflexivity].
  apply byID_Some in Hf as [_ Hr]. cbn.
  destruct (N.eqb_spec (ID r) (ID u)) as [E|E]; [congruence | reflexivity].
Qed.

Lemma replaceRow_same (u : User) (l : list User) :
  NoDup (map ID l) -> In u l -> replaceRow u l = l.
Proof.
  unfold replaceRow. intros Hnd Hin.
  rewrite <- (map_id l) at 2. apply map_ext_in. intros r Hr.
  destruct (N.eqb_spec (ID r) (ID u)) as [E|E]; [|reflexivity].
  clear - Hnd Hin Hr E. induction l as [|x l IH]; [contradiction|].
  cbn in Hnd. inversion Hnd as [|? ? Hx Hl]; subst.
  destruct Hin as [<-|Hin], Hr as [<-|Hr]; try reflexivity.
  - exfalso. apply Hx. rewrite <- E. now apply in_map.
  - exfalso. apply Hx. rewrite E. now apply in_map.
  - now apply IH.
Qed.

Lemma deleteRow_length (k : N) (l : list User) :
  NoDup (map ID l) -> In k (map ID l) ->
  S (List.length (deleteRow k l)) = List.length l.
Proof.
  unfold deleteRow. induction l as [|r l IH]; cbn; [contradiction|].
  intros Hnd Hin. inversion Hnd as [|? ? Hr Hl]; subst.
  destruct (N.eqb_spec (ID r) k) as [E|E]; cbn.
  - f_equal. subst k. clear - Hr. induction l as [|x l IH]; [reflexivity|].
    cbn in *. destruct (N.eqb_spec (ID x) (ID r)) as [E|E]; cbn.
    + exfalso. apply Hr. now left.
    + f_equal. apply IH. tauto.
  - f_equal. apply IH; [assumption|]. destruct Hin; [contradiction|assumption].
Qed.

(** What a Create answered 201 has done. *)
Lemma createUser_created (c : Context) (db : DB) :
  status (fst (createUser c db)) = StatusCreated ->
  exists u k,
    Bind c zeroUser = Some u /\ complete u /\ down db = false
    /\ k = (if ID u =? 0 then nextID db else ID u)
    /\ k <> 0 /\ ~ In k (ids db)
    /\ fst (createUser c db) = mkResponse StatusCreated (marshalUser (setID k u))
    /\ rows (snd (createUser c db)) = (rows db ++ [setID k u])%list.
Proof.
  rewrite createUser_eq.
  destruct (Bind c zeroUser) as [u|]; [|discriminate].
  destruct (String.eqb_spec (Name u) "") as [|Hn]; [discriminate|].
  destruct (String.eqb_spec (Birthday u) "") as [|Hb]; [discriminate|].
  cbn [orb]. rewrite Create_eq. destruct (down db); [discriminate|].
  rewrite insert_eq. change (nextID (tick db)) with (nextID db).
  change (rows (tick db)) with (rows db).
  destruct (ID u =? 0) eqn:E.
  - destruct (2 ^ 63 <=? nextID db); [discriminate|].
    destruct (hasID (nextID db) (rows db)) eqn:H; [discriminate|].
    intros _. exists u, (nextID db). cbn [fst snd rows setRows].
    rewrite E.
    split; [reflexivity|]. split; [now split|]. split; [reflexivity|].
    split; [reflexivity|]. split; [|split; [now apply hasID_false | now split]].
    unfold nextID. destruct (dialect db); lia.
  - destruct (2 ^ 63 <=? ID u); [discriminate|].
    destruct (hasID (ID u) (rows db)) eqn:H; [discriminate|].
    intros _. exists u, (ID u). cbn [fst snd rows setRows].
    rewrite E.
    split; [reflexivity|]. split; [now split|]. split; [reflexivity|].
    split; [reflexivity|]. split; [now apply N.eqb_neq|].
    split; [now apply hasID_false|]. now destruct u.
Qed.

(** What an Update answered 200 has done. *)
Lemma updateUser_updated (c : Context) (db : DB) :
  keyed db ->
  status (fst (updateUser c db)) = StatusOK ->
  exists id u p,
    strconv.Atoi (Param c "id") = inl id /\ byID id (rows db) = Some u
    /\ Bind c zeroUser = Some p
    /\ updateUser c db =
       (mkResponse StatusOK (marshalUser (overlay p u)),
        setRows (replaceRow (overlay p u) (rows db)) (tick (tick db))).
Proof.
  intros Hk H200.
  destruct (strconv.Atoi (Param c "id")) as [id|] eqn:HA;
    [|rewrite updateUser_eq, HA in H200; discriminate].
  destruct (down db) eqn:Hup;
    [rewrite updateUser_eq, HA, Hup in H200; discriminate|].
  destruct (byID id (rows db)) as [u|] eqn:Hf;
    [|rewrite updateUser_eq, HA, Hup, Hf in H200; discriminate].
  destruct (Bind c zeroUser) as [p|] eqn:HB;
    [|rewrite updateUser_eq, HA, Hup, Hf, HB in H200; discriminate].
  exists id, u, p.
  rewrite (updateUser_found c db id u p) in * by assumption.
  destruct (down (tick db)); [discriminate|]. auto.
Qed.

(** What a Delete answered 200 has done. *)
Lemma deleteUser_deleted (c : Context) (db : DB) :
  status (fst (deleteUser c db)) = StatusOK ->
  exists id u,
    strconv.Atoi (Param c "id") = inl id /\ byID id (rows db) = Some u
    /\ rows (snd (deleteUser c db)) = deleteRow (ID u) (rows db).
Proof.
  rewrite deleteUser_eq.
  destruct (strconv.Atoi (Param c "id")) as [id|]; [|discriminate].
  destruct (down db); [discriminate|].
  destruct (byID id (rows db)) as [u|] eqn:Hf; [|discriminate].
  rewrite Delete_eq. destruct (down (tick db)); [discriminate|].
  destruct (ID u =? 0); [discriminate|]. intros _. exists id, u.
  repeat split. exact Hf.
Qed.

End HandlerOutcomes.

Section FailedRequests.

Lemma insert_failed (u : User) (db : DB) :
  snd (fst (Store.insert u db)) <> None ->
  rows (snd (Store.insert u db)) = rows db.
Proof.
  rewrite insert_eq.
  destruct (ID u =? 0);
    match goal with
    | |- context [2 ^ 63 <=? ?k] => destruct (2 ^ 63 <=? k)
    end;
    try destruct (hasID _ _); cbn [fst snd rows setRows setSequence];
    intros H; try reflexivity; now contradiction H.
Qed.

Lemma createUser_not_created (c : Context) (db : DB) :
  status (fst (createUser c db)) <> StatusCreated ->
  rows (snd (createUser c db)) = rows db.
Proof.
  rewrite createUser_eq.
  destruct (Bind c zeroUser) as [u|]; [|reflexivity].
  destruct (_ || _)%bool; [reflexivity|].
  rewrite Create_eq. destruct (down db); [reflexivity|].
  assert (H := insert_failed u (tick db)).
  destruct (Store.insert u (tick db)) as [[u' [e|]] db'] eqn:E;
    cbn [fst snd status] in *.
  - intros _. apply H. discriminate.
  - intros H'. now contradiction H'.
Qed.

Lemma updateUser_not_updated (c : Context) (db : DB) :
  status (fst (updateUser c db)) <> StatusOK ->
  rows (snd (updateUser c db)) = rows db.
Proof.
  rewrite updateUser_eq.
  destruct (strconv.Atoi (Param c "id")) as [id|]; [|reflexivity].
  destruct (down db); [reflexivity|].
  destruct (byID id (rows db)) as [u|]; [|reflexivity].
  destruct (Bind c zeroUser) as [p|]; [|reflexivity].
  rewrite Save_eq. destruct (down (tick db)); [reflexivity|].
  assert (H := insert_failed (overlay p u) (tick (tick db))).
  destruct (ID (overlay p u) =? 0).
  - destruct (Store.insert _ (tick (tick db))) as [[u' [e|]] db'] eqn:E;
      cbn [fst snd status] in *.
    + intros _. apply H. discriminate.
    + intros H'. now contradiction H'.
  - destruct (hasID _ _).
    + cbn [fst snd status]. intros H'. now contradiction H'.
    + destruct (Store.insert _ (tick (tick db))) as [[u' [e|]] db'] eqn:E;
        cbn [fst snd status] in *.
      * intros _. apply H. discriminate.
      * intros H'. now contradiction H'.
Qed.

Lemma deleteUser_not_deleted (c : Context) (db : DB) :
  status (fst (deleteUser c db)) <> StatusOK ->
  rows (snd (deleteUser c db)) = rows db.
Proof.
  rewrite deleteUser_eq.
  destruct (strconv.Atoi (Param c "id")) as [id|]; [|reflexivity].
  destruct (down db); [reflexivity|].
  destruct (byID id (rows db)) as [u|]; [|reflexivity].
  rewrite Delete_eq. destruct (down (tick db)); [reflexivity|].
  destruct (ID u =? 0); [reflexivity|].
  cbn. intros H'. now contradiction H'.
Qed.

Lemma marshalUser_inj (u v : User) : marshalUser u = marshalUser v -> u = v.
Proof.
  destruct u, v. unfold marshalUser. cbn. intros [= -> -> ->]. reflexivity.
Qed.

End FailedRequests.

(** ** Reading back what was written *)

(** X1: a User returned by Create with 201 is the User that Get returns
    with 200 for the id of that User, as soon as the read goes through. *)
Theorem createUser_then_getUser (c c' : Context) (db : DB) (u : User) :
  fst (createUser c db) = mkResponse StatusCreated (marshalUser u) ->
  strconv.Atoi (Param c' "id") = inl (Z.of_N (ID u)) ->
  down (snd (createUser c db)) = false ->
  fst (getUser c' (snd (createUser c db)))
  = mkResponse StatusOK (marshalUser u).
Proof.
  intros Hc HA Hup.
  assert (H201 : status (fst (createUser c db)) = StatusCreated)
    by now rewrite Hc.
  destruct (createUser_created c db H201)
    as [u0 [k [_ [_ [_ [_ [_ [Hfresh [Hresp Hrows]]]]]]]]].
  assert (Hu : setID k u0 = u)
    by (apply marshalUser_inj; rewrite Hresp in Hc; congruence).
  subst u. rewrite getUser_eq, HA, Hup, Hrows, byID_app.
  replace (byID (Z.of_N (ID (setID k u0))) (rows db)) with (@None User).
  - now rewrite Z.eqb_refl.
  - symmetry. apply byID_None. now rewrite In_ids_Z.
Qed.

Lemma createUser_then_getUser_witness :
  fst (getUser (ctx "3" Malformed)
         (snd (createUser
                 (ctx "" (Object None (Some "Grace") (Some "1906-12-09")))
                 db0)))
  = mkResponse StatusOK (marshalUser (mkUser 3 "Grace" "1906-12-09")).
Proof.
  apply (createUser_then_getUser
           (ctx "" (Object None (Some "Grace") (Some "1906-12-09")))
           (ctx "3" Malformed) db0 (mkUser 3 "Grace" "1906-12-09"));
    reflexivity.
Defined.

(** X2: the User returned by Update with 200 is the User that Get returns
    with 200 for the same path id, as soon as the read goes through. *)
Theorem updateUser_then_getUser (c c' : Context) (db : DB) :
  keyed db ->
  status (fst (updateUser c db)) = StatusOK ->
  Param c' "id" = Param c "id" ->
  down (snd (updateUser c db)) = false ->
  status (fst (getUser c' (snd (updateUser c db)))) = StatusOK
  /\ body (fst (getUser c' (snd (updateUser c db))))
     = body (fst (updateUser c db)).
Proof.
  intros Hk H200 Hc' Hup.
  destruct (updateUser_updated c db Hk H200) as [id [u [p [HA [Hf [_ E]]]]]].
  rewrite E in *. cbn [fst snd] in *.
  rewrite getUser_eq, Hc', HA, Hup. cbn [rows setRows].
  rewrite byID_replaceRow, Hf. cbn. rewrite N.eqb_refl. now split.
Qed.

Lemma updateUser_then_getUser_witness :
  status (fst (getUser (ctx "2" Malformed)
                 (snd (updateUser
                         (ctx "2" (Object None (Some "Alan M.") None)) db0))))
  = StatusOK
  /\ body (fst (getUser (ctx "2" Malformed)
                  (snd (updateUser
                          (ctx "2" (Object None (Some "Alan M.") None)) db0))))
     = body (fst (updateUser (ctx "2" (Object None (Some "Alan M.") None))
                             db0)).
Proof.
  apply (updateUser_then_getUser
           (ctx "2" (Object None (Some "Alan M.") None)) (ctx "2" Malformed)
           db0 db0_keyed); reflexivity.
Defined.

(** X3: List and Get never change the persisted state, whether they
    succeed or fail. *)
Theorem reads_change_nothing (c : Context) (db : DB) :
  persisted (snd (getUsers c db)) = persisted db
  /\ persisted (snd (getUser c db)) = persisted db.
Proof.
  rewrite getUsers_eq, getUser_eq. split; [reflexivity|].
  now destruct (strconv.Atoi (Param c "id")).
Qed.



(** ** What the handlers answer *)

(** X5: the statuses each route can answer.  List answers 200 or 500; Get
    answers 200, 400 or 404, never 500; Create answers 201, 400 or 500,
    never 404; Update and Delete answer 200, 400, 404 or 500. *)
Theorem statuses_by_route (c : Context) (db : DB) :
  In (status (fst (getUsers c db))) [200; 500]
  /\ In (status (fst (getUser c db))) [200; 400; 404]
  /\ In (status (fst (createUser c db))) [201; 400; 500]
  /\ In (status (fst (updateUser c db))) [200; 400; 404; 500]
  /\ In (status (fst (deleteUser c db))) [200; 400; 404; 500].
Proof.
  rewrite getUsers_eq, getUser_eq, createUser_eq, updateUser_eq,
    deleteUser_eq.
  repeat apply conj.
  - destruct (down db); cbn; auto.
  - destruct (strconv.Atoi _); [|cbn; auto].
    destruct (down db); [cbn; auto|].
    destruct (byID _ _); cbn; auto.
  - destruct (Bind c zeroUser) as [u|]; [|cbn; auto].
    destruct (_ || _)%bool; [cbn; auto|].
    destruct (Store.Create u db) as [[u' [e|]] db']; cbn; auto.
  - destruct (strconv.Atoi _) as [id|]; [|cbn; auto].
    destruct (down db); [cbn; auto|].
    destruct (byID _ _) as [u|]; [|cbn; auto].
    destruct (Bind c zeroUser) as [p|]; [|cbn; auto].
    destruct (Store.Save _ _) as [[u' [e|]] db']; cbn; auto.
  - destruct (strconv.Atoi _) as [id|]; [|cbn; auto].
    destruct (down db); [cbn; auto|].
    destruct (byID _ _) as [u|]; [|cbn; auto].
    destruct (Store.Delete _ _) as [[u' [e|]] db']; cbn; auto.
Qed.

(** X6: on every route, a response with an error status carries a JSON
    object with the single key ["error"] and a text. *)
Theorem error_bodies (r : Route) (c : Context) (db : DB) :
  400 <= status (fst (handler r c db)) ->
  exists msg, body (fst (handler r c db)) = JObj [("error", JStr msg)].
Proof.
  destruct r; cbn [handler].
  - rewrite getUsers_eq. destruct (down db); cbn; intros H.
    + eexists. reflexivity.
    + unfold StatusOK in H. lia.
  - rewrite getUser_eq. destruct (strconv.Atoi _); [|eexists; reflexivity].
    destruct (down db); [eexists; reflexivity|].
    destruct (byID _ _); cbn; intros H; [|eexists; reflexivity].
    unfold StatusOK in H. lia.
  - rewrite createUser_eq.
    destruct (Bind c zeroUser) as [u|]; [|eexists; reflexivity].
    destruct (_ || _)%bool; [eexists; reflexivity|].
    destruct (Store.Create u db) as [[u' [e|]] db']; cbn; intros H;
      [eexists; reflexivity|].
    unfold StatusCreated in H. lia.
  - rewrite updateUser_eq.
    destruct (strconv.Atoi _) as [id|]; [|eexists; reflexivity].
    destruct (down db); [eexists; reflexivity|].
    destruct (byID _ _) as [u|]; [|eexists; reflexivity].
    destruct (Bind c zeroUser) as [p|]; [|eexists; reflexivity].
    destruct (Store.Save _ _) as [[u' [e|]] db']; cbn; intros H;
      [eexists; reflexivity|].
    unfold StatusOK in H. lia.
  - rewrite deleteUser_eq.
    destruct (strconv.Atoi _) as [id|]; [|eexists; reflexivity].
    destruct (down db); [eexists; reflexivity|].
    destruct (byID _ _) as [u|]; [|eexists; reflexivity].
    destruct (Store.Delete _ _) as [[u' [e|]] db']; cbn; intros H;
      [eexists; reflexivity|].
    unfold StatusOK in H. lia.
Qed.

Lemma error_bodies_witness :
  exists msg,
    body (fst (handler GetUser (ctx "abc" Malformed) db0))
    = JObj [("error", JStr msg)].
Proof.
  apply (error_bodies GetUser (ctx "abc" Malformed) db0).
  vm_compute. discriminate.
Defined.

(** X7: the path id counts by its value, not by its spelling: two requests
    with the same body whose ids are numerals of the same integer (["7"],
    ["+7"], ["007"]) are answered alike and leave the same database, on
    every route. *)
Theorem id_by_value (r : Route) (c1 c2 : Context) (db : DB) (z : Z) :
  signedNumeral (Param c1 "id") = Some z ->
  signedNumeral (Param c2 "id") = Some z ->
  (- 2 ^ 63 <= z < 2 ^ 63)%Z ->
  payload c1 = payload c2 ->
  handler r c1 db = handler r c2 db.
Proof.
  intros H1 H2 Hr Hp.
  assert (A1 := proj2 (Atoi_signedNumeral (Param c1 "id") z) (conj H1 Hr)).
  assert (A2 := proj2 (Atoi_signedNumeral (Param c2 "id") z) (conj H2 Hr)).
  assert (HB : Bind c1 zeroUser = Bind c2 zeroUser)
    by (unfold Bind; now rewrite Hp).
  destruct r; cbn [handler].
  - now rewrite !getUsers_eq.
  - now rewrite !getUser_eq, A1, A2.
  - now rewrite !createUser_eq, HB.
  - now rewrite !updateUser_eq, A1, A2, HB.
  - now rewrite !deleteUser_eq, A1, A2.
Qed.

Lemma id_by_value_witness :
  handler UpdateUser (ctx "+2" (Object None (Some "Alan M.") None)) db0
  = handler UpdateUser (ctx "002" (Object None (Some "Alan M.") None)) db0.
Proof.
  apply (id_by_value UpdateUser
           (ctx "+2" (Object None (Some "Alan M.") None))
           (ctx "002" (Object None (Some "Alan M.") None)) db0 2%Z);
    try reflexivity.
  lia.
Defined.

(** ** How many Users, and which *)

(** X8: a Create answered 201 adds exactly one User; on a table with unique
    ids a Delete answered 200 removes exactly one. *)
Theorem create_delete_count (c : Context) (db : DB) :
  (status (fst (createUser c db)) = StatusCreated ->
   List.length (rows (snd (createUser c db))) = S (List.length (rows db)))
  /\ (NoDup (ids db) ->
      status (fst (deleteUser c db)) = StatusOK ->
      S (List.length (rows (snd (deleteUser c db)))) = List.length (rows db)).
Proof.
  split.
  - intros H. destruct (createUser_created c db H)
      as [u [k [_ [_ [_ [_ [_ [_ [_ Hrows]]]]]]]]].
    rewrite Hrows, length_app. cbn. lia.
  - intros Hnd H. destruct (deleteUser_deleted c db H) as [id [u [_ [Hf ->]]]].
    apply deleteRow_length; [exact Hnd|].
    apply hasID_In. eapply byID_hasID, Hf.
Qed.

Lemma create_delete_count_witness :
  List.length
    (rows (snd (createUser
                  (ctx "" (Object None (Some "Grace") (Some "1906-12-09")))
                  db0))) = 3%nat
  /\ S (List.length (rows (snd (deleteUser (ctx "1" Malformed) db0)))) = 2%nat.
Proof.
  split.
  - apply (proj1 (create_delete_count
                    (ctx "" (Object None (Some "Grace") (Some "1906-12-09")))
                    db0)).
    reflexivity.
  - apply (proj2 (create_delete_count (ctx "1" Malformed) db0)).
    + repeat constructor; cbn; intuition discriminate.
    + reflexivity.
Defined.

(** X9: whatever it answers, Update neither adds nor removes a User nor
    changes an id: the ids of the table are the same after as before, up to
    the order of the rows, and so is their number. *)
Theorem updateUser_keeps_ids (c : Context) (db : DB) :
  keyed db ->
  Permutation (ids (snd (updateUser c db))) (ids db)
  /\ List.length (rows (snd (updateUser c db))) = List.length (rows db).
Proof.
  intros Hk.
  assert (E : ids (snd (updateUser c db)) = ids db).
  { destruct (N.eq_dec (status (fst (updateUser c db))) StatusOK) as [H|H].
    - destruct (updateUser_updated c db Hk H) as [id [u [p [_ [_ [_ ->]]]]]].
      unfold ids. cbn [snd rows setRows]. apply replaceRow_ids.
    - unfold ids. now rewrite updateUser_not_updated. }
  split.
  - now rewrite E.
  - unfold ids in E. apply (f_equal (@List.length N)) in E.
    now rewrite !length_map in E.
Qed.

Lemma updateUser_keeps_ids_witness :
  Permutation
    (ids (snd (updateUser (ctx "2" (Object (Some 9) (Some "Alan M.") None))
                          db0)))
    [1; 2]
  /\ List.length
       (rows (snd (updateUser
                     (ctx "2" (Object (Some 9) (Some "Alan M.") None)) db0)))
     = 2%nat.
Proof.
  apply (updateUser_keeps_ids
           (ctx "2" (Object (Some 9) (Some "Alan M.") None)) db0 db0_keyed).
Defined.

(** X10: when the [ID] of the body is one a database integer can hold, the
    User a Create returns with 201 has a non-zero id, a non-empty name and
    a non-empty birthday, and is in the table afterwards. *)
Theorem created_user_is_complete (c : Context) (db : DB) (p : User) :
  Bind c zeroUser = Some p -> ID p < 2 ^ 63 ->
  status (fst (createUser c db)) = StatusCreated ->
  exists u,
    body (fst (createUser c db)) = marshalUser u
    /\ ID u <> 0 /\ Name u <> "" /\ Birthday u <> ""
    /\ In u (rows (snd (createUser c db))).
Proof.
  intros _ _ H. destruct (createUser_created c db H)
    as [u [k [_ [[Hn Hb] [_ [_ [Hk [_ [Hresp Hrows]]]]]]]]].
  exists (setID k u). rewrite Hresp, Hrows. cbn [body setID ID Name Birthday].
  repeat apply conj; auto. apply in_or_app. right. now left.
Qed.

Lemma created_user_is_complete_witness :
  exists u,
    body (fst (createUser
                 (ctx "" (Object (Some 0) (Some "Grace") (Some "1906-12-09")))
                 (migrated Postgres))) = marshalUser u
    /\ ID u <> 0 /\ Name u <> "" /\ Birthday u <> ""
    /\ In u (rows (snd (createUser
                 (ctx "" (Object (Some 0) (Some "Grace") (Some "1906-12-09")))
                 (migrated Postgres)))).
Proof.
  apply (created_user_is_complete
           (ctx "" (Object (Some 0) (Some "Grace") (Some "1906-12-09")))
           (migrated Postgres) (mkUser 0 "Grace" "1906-12-09"));
    reflexivity.
Defined.

(** X11: an Update or a Delete addressed to one id leaves the User of
    every other id as it was, whatever the request answers. *)
Theorem other_users_untouched (c : Context) (db : DB) (z : Z) :
  keyed db ->
  strconv.Atoi (Param c "id") <> inl z ->
  byID z (rows (snd (updateUser c db))) = byID z (rows db)
  /\ byID z (rows (snd (deleteUser c db))) = byID z (rows db).
Proof.
  intros Hk Hz. split.
  - destruct (N.eq_dec (status (fst (updateUser c db))) StatusOK) as [H|H].
    + destruct (updateUser_updated c db Hk H) as [id [u [p [HA [Hf [_ ->]]]]]].
      cbn [snd rows setRows]. apply byID_replaceRow_other.
      apply byID_Some in Hf as [_ Hid]. cbn [overlay ID]. congruence.
    + now rewrite updateUser_not_updated.
  - destruct (N.eq_dec (status (fst (deleteUser c db))) StatusOK) as [H|H].
    + destruct (deleteUser_deleted c db H) as [id [u [HA [Hf ->]]]].
      apply byID_deleteRow_other.
      apply byID_Some in Hf as [_ Hid]. congruence.
    + now rewrite deleteUser_not_deleted.
Qed.

Lemma other_users_untouched_witness :
  byID 1 (rows (snd (updateUser (ctx "2" (Object None (Some "X") None)) db0)))
  = byID 1 (rows db0)
  /\ byID 1 (rows (snd (deleteUser (ctx "2" (Object None (Some "X") None))
                                   db0)))
     = byID 1 (rows db0).
Proof.
  apply (other_users_untouched (ctx "2" (Object None (Some "X") None)) db0
           1%Z db0_keyed).
  discriminate.
Defined.

(** X12: whatever it answers, a Create leaves every User that was in the
    table retrievable by its id, unchanged. *)
Theorem createUser_keeps_existing (c : Context) (db : DB) (z : Z) (u : User) :
  byID z (rows db) = Some u ->
  byID z (rows (snd (createUser c db))) = Some u.
Proof.
  intros Hf.
  destruct (N.eq_dec (status (fst (createUser c db))) StatusCreated) as [H|H].
  - destruct (createUser_created c db H)
      as [u0 [k [_ [_ [_ [_ [_ [_ [_ Hrows]]]]]]]]].
    now rewrite Hrows, byID_app, Hf.
  - now rewrite createUser_not_created.
Qed.

Lemma createUser_keeps_existing_witness :
  byID 1 (rows (snd (createUser
                       (ctx "" (Object (Some 1) (Some "Eve") (Some "2000")))
                       db0))) = Some ada
  /\ byID 2 (rows (snd (createUser
                       (ctx "" (Object None (Some "Eve") (Some "2000")))
                       db0))) = Some alan.
Proof.
  split.
  - apply (createUser_keeps_existing
             (ctx "" (Object (Some 1) (Some "Eve") (Some "2000"))) db0 1%Z ada).
    reflexivity.
  - apply (createUser_keeps_existing
             (ctx "" (Object None (Some "Eve") (Some "2000"))) db0 2%Z alan).
    reflexivity.
Defined.

(** ** Edge cases of Update and Create *)

(** X13: an Update whose body carries neither a name nor a birthday (both
    absent or empty) leaves every row of a table with unique ids as it was,
    whatever it answers. *)
Theorem updateUser_empty_body (c : Context) (db : DB) (p : User) :
  keyed db -> NoDup (ids db) ->
  Bind c zeroUser = Some p -> Name p = "" -> Birthday p = "" ->
  rows (snd (updateUser c db)) = rows db.
Proof.
  intros Hk Hnd HB Hn Hb.
  destruct (N.eq_dec (status (fst (updateUser c db))) StatusOK) as [H|H].
  - destruct (updateUser_updated c db Hk H) as [id [u [p' [_ [Hf [HB' ->]]]]]].
    assert (p' = p) by congruence. subst p'.
    cbn [snd rows setRows].
    assert (Hu : overlay p u = u).
    { unfold overlay. rewrite Hn, Hb. cbn. now destruct u. }
    rewrite Hu. apply replaceRow_same; [exact Hnd|].
    now apply byID_Some in Hf.
  - now apply updateUser_not_updated.
Qed.

Lemma updateUser_empty_body_witness :
  rows (snd (updateUser (ctx "2" (Object (Some 5) (Some "") None)) db0))
  = rows db0.
Proof.
  apply (updateUser_empty_body (ctx "2" (Object (Some 5) (Some "") None)) db0
           (mkUser 5 "" "") db0_keyed); try reflexivity.
  repeat constructor; cbn; intuition discriminate.
Defined.

(** X14: Update looks for the record before it reads the body.  For a
    body that cannot be decoded and a well-formed id, Create answers 400;
    Update answers 400 exactly when the record exists and its load
    succeeds, and 404 exactly when there is no record or the load fails;
    either way Update leaves the rows as they were. *)
Theorem malformed_body_order (c : Context) (db : DB) (id : Z) :
  Bind c zeroUser = None ->
  strconv.Atoi (Param c "id") = inl id ->
  status (fst (createUser c db)) = StatusBadRequest
  /\ (status (fst (updateUser c db)) = StatusBadRequest <->
      byID id (rows db) <> None /\ down db = false)
  /\ (status (fst (updateUser c db)) = StatusNotFound <->
      byID id (rows db) = None \/ down db = true)
  /\ rows (snd (updateUser c db)) = rows db.
Proof.
  intros HB HA. rewrite createUser_eq, updateUser_eq, HB, HA.
  split; [reflexivity|].
  destruct (down db).
  - cbn [fst snd status]. split; [|split].
    + split; [discriminate | intros [_ H1]; discriminate].
    + split; [intros _; now right | reflexivity].
    + reflexivity.
  - destruct (byID id (rows db)) as [u|]; cbn [fst snd status];
      (split; [|split]).
    + split; [intros _; split; [discriminate | reflexivity] | reflexivity].
    + split; [discriminate | intros [H1|H1]; discriminate].
    + reflexivity.
    + split; [discriminate | intros [H1 _]; now contradiction H1].
    + split; [intros _; now left | reflexivity].
    + reflexivity.
Qed.

Lemma malformed_body_order_witness :
  status (fst (createUser (ctx "9" Malformed) db0)) = StatusBadRequest
  /\ status (fst (updateUser (ctx "9" Malformed) db0)) = StatusNotFound
  /\ status (fst (updateUser (ctx "2" Malformed) db0)) = StatusBadRequest
  /\ status (fst (updateUser (ctx "2" Malformed) offline)) = StatusNotFound
  /\ rows (snd (updateUser (ctx "2" Malformed) db0)) = rows db0.
Proof.
  assert (H9 := malformed_body_order (ctx "9" Malformed) db0 9%Z
                  eq_refl eq_refl).
  assert (H2 := malformed_body_order (ctx "2" Malformed) db0 2%Z
                  eq_refl eq_refl).
  assert (Hd := malformed_body_order (ctx "2" Malformed) offline 2%Z
                  eq_refl eq_refl).
  repeat apply conj.
  - apply H9.
  - apply (proj2 (proj1 (proj2 (proj2 H9)))). left. reflexivity.
  - apply (proj2 (proj1 (proj2 H2))). split; [discriminate | reflexivity].
  - apply (proj2 (proj1 (proj2 (proj2 Hd)))). right. reflexivity.
  - apply H2.
Defined.



(** X17: after a Create answered 201, List, when its read succeeds,
    answers 200 with an array made of the Users that were there and the
    User that Create returned, each once, in some order. *)
Theorem createUser_then_getUsers (c c' : Context) (db : DB) :
  status (fst (createUser c db)) = StatusCreated ->
  errorOf (Store.Find nilSlice) (snd (createUser c db)) = None ->
  exists l,
    fst (getUsers c' (snd (createUser c db))) = mkResponse StatusOK (JArr l)
    /\ Permutation l (body (fst (createUser c db))
                      :: map marshalUser (rows db)).
Proof.
  intros H Hup. destruct (createUser_created c db H)
    as [u [k [_ [_ [_ [_ [_ [_ [Hresp Hrows]]]]]]]]].
  unfold errorOf in Hup. rewrite Find_eq in Hup.
  destruct (down (snd (createUser c db))) eqn:Hd; [discriminate|].
  exists (map marshalUser (rows (snd (createUser c db)))).
  rewrite getUsers_eq, Hd. split; [reflexivity|].
  rewrite Hrows, Hresp, map_app. cbn [body map].
  symmetry. apply Permutation_cons_append.
Qed.

Lemma createUser_then_getUsers_witness :
  exists l,
    fst (getUsers (mkContext [] Malformed)
           (snd (createUser
                   (ctx "" (Object None (Some "Grace") (Some "1906-12-09")))
                   db0)))
    = mkResponse StatusOK (JArr l)
    /\ Permutation l
         (body (fst (createUser
                       (ctx "" (Object None (Some "Grace")
                                       (Some "1906-12-09"))) db0))
          :: map marshalUser (rows db0)).
Proof.
  apply (createUser_then_getUsers
           (ctx "" (Object None (Some "Grace") (Some "1906-12-09")))
           (mkContext [] Malformed) db0); reflexivity.
Defined.

(** X18: after a Delete answered 200, an Update on the same id answers 404
    whatever its body, and brings nothing back. *)
Theorem deleteUser_then_updateUser (c c' : Context) (db : DB) :
  status (fst (deleteUser c db)) = StatusOK ->
  Param c' "id" = Param c "id" ->
  status (fst (updateUser c' (snd (deleteUser c db)))) = StatusNotFound
  /\ rows (snd (updateUser c' (snd (deleteUser c db))))
     = rows (snd (deleteUser c db)).
Proof.
  intros H Hc'. destruct (deleteUser_deleted c db H) as [id [u [HA [Hf Hrows]]]].
  assert (Hgone : byID id (rows (snd (deleteUser c db))) = None).
  { rewrite Hrows. apply byID_deleteRow. now apply byID_Some in Hf. }
  rewrite updateUser_eq, Hc', HA, Hgone.
  now destruct (down (snd (deleteUser c db))).
Qed.

Lemma deleteUser_then_updateUser_witness :
  status (fst (updateUser (ctx "2" (Object None (Some "Alan") (Some "1912")))
                 (snd (deleteUser (ctx "2" Malformed) db0)))) = StatusNotFound
  /\ rows (snd (updateUser (ctx "2" (Object None (Some "Alan") (Some "1912")))
                  (snd (deleteUser (ctx "2" Malformed) db0))))
     = rows (snd (deleteUser (ctx "2" Malformed) db0)).
Proof.
  apply (deleteUser_then_updateUser (ctx "2" Malformed)
           (ctx "2" (Object None (Some "Alan") (Some "1912"))) db0);
    reflexivity.
Defined.

(** ** The service as a whole *)

(** X16: starting from a freshly migrated table, whatever requests are
    served on whatever routes and whichever store calls fail, the ids of
    the persisted Users are unique, none of them is zero, and no User has an
    empty name or birthday. *)
Theorem fresh_service_invariant
        (d : Dialect) (o : list bool) (reqs : list (Route * Context)) :
  Inv (serveAll reqs (setOutages o (migrated d)))
  /\ keyed (serveAll reqs (setOutages o (migrated d))).
Proof.
  split.
  - apply serveAll_Inv. split; constructor.
  - apply serveAll_keyed. intros [].
Qed.
